(** * my_own_module: create a file only if it does not exist

    A shallow embedding of [plugins/modules/my_own_module.py] and of the
    library calls it makes, followed by the properties of [run_module].

    Conventions of the embedding.
    - A Python [str] is a [string]; a character stands for the code point of
      the same number, so the strings covered are those over U+0000..U+00FF.
    - The module talks to the operating system through [os.path.isdir],
      [os.path.exists], [open], [file.write], [file.close] and [os.chmod].
      They act on a store [fs] that maps a path to the node it names; every
      call is also recorded as an [event], so that "no filesystem access" and
      "no write" are statements about the recorded events.
    - [module.exit_json] and [module.fail_json] leave the program
      ([SystemExit]); an ordinary Python exception is a different way of
      leaving a block, and only the latter is caught by [except Exception]. *)

From Stdlib Require Import ZArith Ascii String List Bool Lia.
From stdpp Require Import base option gmap strings list fin_maps pretty.

Local Open Scope string_scope.
Local Open Scope list_scope.
Local Open Scope Z_scope.

(* ===================================================================== *)
(** ** Characters and strings of the Python level                          *)
(* ===================================================================== *)

Module PyStr.

Definition ord (c : ascii) : Z := Z.of_N (N_of_ascii c).
Definition chr (n : Z) : ascii := ascii_of_N (Z.to_N n).

Definition chars (s : string) : list ascii := list_ascii_of_string s.
Definition of_chars (l : list ascii) : string := string_of_list_ascii l.

Definition eqc (a b : ascii) : bool := Ascii.eqb a b.

(** [s.rfind(c)] for a one-character needle: the highest index holding [c],
    or -1. The scan keeps the last hit seen so far. *)
Fixpoint rfind_from (c : ascii) (l : list ascii) (i : Z) (last : Z) : Z :=
  match l with
  | [] => last
  | x :: l' => rfind_from c l' (i + 1) (if eqc x c then i else last)
  end.

Definition rfind (s : string) (c : ascii) : Z := rfind_from c (chars s) 0 (-1).

(** [s[:i]] for [0 <= i]. *)
Definition slice_to (s : string) (i : Z) : string :=
  of_chars (firstn (Z.to_nat i) (chars s)).

(** [c * n]. *)
Definition repeat_char (c : ascii) (n : nat) : string :=
  of_chars (List.repeat c n).

Fixpoint drop_leading (c : ascii) (l : list ascii) : list ascii :=
  match l with
  | x :: l' => if eqc x c then drop_leading c l' else l
  | [] => []
  end.

(** [s.rstrip(c)] for a one-character set. *)
Definition rstrip (s : string) (c : ascii) : string :=
  of_chars (rev (drop_leading c (rev (chars s)))).

(** Truth value of a [str]: non-empty. *)
Definition truthy (s : string) : bool :=
  match s with EmptyString => false | String _ _ => true end.

Definition has_nul (s : string) : bool :=
  existsb (fun c => eqc c "000"%char) (chars s).

End PyStr.

(* ===================================================================== *)
(** ** [int(x, 8)] on a [str]                                              *)
(* ===================================================================== *)

(** CPython converts the text in two steps: [PyLong_FromUnicodeObject] first
    maps spaces and decimal digits outside ASCII to ASCII
    ([_PyUnicode_TransformDecimalAndSpaceToASCII]), then [PyLong_FromString]
    reads blanks, a sign, the [0o] prefix, the digits with single
    underscores between them, and blanks again up to the end. *)
Module PyInt.
Import PyStr.

(** [Py_ISSPACE] of the C locale. *)
Definition Py_ISSPACE (c : ascii) : bool :=
  let n := ord c in ((9 <=? n) && (n <=? 13)) || (n =? 32).

(** [Py_UNICODE_ISSPACE] on U+0000..U+00FF. *)
Definition Py_UNICODE_ISSPACE (c : ascii) : bool :=
  let n := ord c in
  ((9 <=? n) && (n <=? 13)) || ((28 <=? n) && (n <=? 32))
  || (n =? 133) || (n =? 160).

(** [Py_UNICODE_TODECIMAL] on U+0000..U+00FF: only the ASCII digits are
    decimal digits there (the superscripts and fractions of Latin-1 are
    not), -1 otherwise. *)
Definition Py_UNICODE_TODECIMAL (c : ascii) : Z :=
  let n := ord c in if (48 <=? n) && (n <=? 57) then n - 48 else -1.

Definition is_ascii (l : list ascii) : bool :=
  forallb (fun c => ord c <? 128) l.

(** The loop of the transformation: it stops after the first character
    that is neither a space nor a decimal digit, leaving a question mark. *)
Fixpoint transform_loop (l : list ascii) : list ascii :=
  match l with
  | [] => []
  | ch :: l' =>
      if ord ch <? 127 then ch :: transform_loop l'
      else if Py_UNICODE_ISSPACE ch then " "%char :: transform_loop l'
      else
        let decimal := Py_UNICODE_TODECIMAL ch in
        if decimal <? 0 then ["?"%char]
        else chr (48 + decimal) :: transform_loop l'
  end.

Definition TransformDecimalAndSpaceToASCII (l : list ascii) : list ascii :=
  if is_ascii l then l else transform_loop l.

(** [_PyLong_DigitValue]: 37 for a character that is no digit in any base. *)
Definition DigitValue (c : ascii) : Z :=
  let n := ord c in
  if (48 <=? n) && (n <=? 57) then n - 48
  else if (97 <=? n) && (n <=? 122) then n - 97 + 10
  else if (65 <=? n) && (n <=? 90) then n - 65 + 10
  else 37.

Fixpoint skip_space (l : list ascii) : list ascii :=
  match l with
  | c :: l' => if Py_ISSPACE c then skip_space l' else l
  | [] => []
  end.

(** The scan of [long_from_binary_base]: digits below the base and
    underscores are consumed; two underscores in a row, or one at the end
    of the run, are a syntax error ([None]). [prev_us] tells whether the
    previous character was an underscore, [acc] is the value read so far.
    The result is the value and the unread rest. *)
Fixpoint scan_digits (base : Z) (l : list ascii) (prev_us : bool) (acc : Z)
  : option (Z * list ascii) :=
  match l with
  | c :: l' =>
      if eqc c "_"%char then
        if prev_us then None else scan_digits base l' true acc
      else if DigitValue c <? base then
        scan_digits base l' false (acc * base + DigitValue c)
      else if prev_us then None else Some (acc, l)
  | [] => if prev_us then None else Some (acc, l)
  end.

Definition starts_with_digit_or_us (base : Z) (l : list ascii) : bool :=
  match l with
  | c :: _ => eqc c "_"%char || (DigitValue c <? base)
  | [] => false
  end.

(** [PyLong_FromString(str, &end, 8)], with [None] for [onError] and for
    a text not read to its end. *)
Definition PyLong_FromString8 (l : list ascii) : option Z :=
  let str := skip_space l in
  let '(sign, str) :=
    match str with
    | c :: rest =>
        if eqc c "+"%char then (1, rest)
        else if eqc c "-"%char then (-1, rest)
        else (1, str)
    | [] => (1, str)
    end in
  let str :=
    match str with
    | c0 :: c1 :: rest =>
        if eqc c0 "0"%char && (eqc c1 "o"%char || eqc c1 "O"%char) then
          (* one underscore allowed here *)
          match rest with
          | u :: rest' => if eqc u "_"%char then rest' else rest
          | [] => rest
          end
        else str
    | _ => str
    end in
  match str with
  | c :: _ => if eqc c "_"%char then None (* may not start with underscores *)
              else
                match scan_digits 8 str false 0 with
                | None => None
                | Some (z, rest) =>
                    if negb (starts_with_digit_or_us 8 str) then None (* str == start *)
                    else
                      match skip_space rest with
                      | [] => Some (sign * z)
                      | _ :: _ => None
                      end
                end
  | [] => None
  end.

(** [int(x, 8)]: [None] stands for the [ValueError] it raises. *)
Definition int8 (x : string) : option Z :=
  PyLong_FromString8 (TransformDecimalAndSpaceToASCII (chars x)).

End PyInt.

(* ===================================================================== *)
(** ** [posixpath.dirname]                                                 *)
(* ===================================================================== *)

Module os_path.
Import PyStr.

Definition sep : ascii := "/"%char.

(** [[
      i = p.rfind(sep) + 1
      head = p[:i]
      if head and head != sep*len(head):
          head = head.rstrip(sep)
      return head
    ]] *)
Definition dirname (p : string) : string :=
  let i := rfind p sep + 1 in
  let head := slice_to p i in
  if truthy head && negb (String.eqb head (repeat_char sep (String.length head)))
  then rstrip head sep
  else head.

End os_path.

(* ===================================================================== *)
(** ** Python exceptions and their text                                    *)
(* ===================================================================== *)

(** The exception classes that the calls of the module can raise. All three
    derive from [Exception]. *)
Inductive PyExn : Type :=
  | ValueError (msg : string)
  | OverflowError (msg : string)
  | OSError (errno : Z) (strerror : string) (filename : string).

Module PyRepr.
Import PyStr.

Definition quote1 : ascii := "'"%char.
Definition quote2 : ascii := "034"%char.
Definition backslash : ascii := "\"%char.

Definition hexdigit (n : Z) : ascii :=
  if n <? 10 then chr (48 + n) else chr (97 + n - 10).

(** [Py_UNICODE_ISPRINTABLE] on U+0000..U+00FF. *)
Definition isprintable (c : ascii) : bool :=
  let n := ord c in
  ((32 <=? n) && (n <=? 126)) || ((161 <=? n) && negb (n =? 173)).

Definition escape (q : ascii) (c : ascii) : list ascii :=
  let n := ord c in
  if eqc c q || eqc c backslash then [backslash; c]
  else if n =? 9 then [backslash; "t"%char]
  else if n =? 10 then [backslash; "n"%char]
  else if n =? 13 then [backslash; "r"%char]
  else if isprintable c then [c]
  else [backslash; "x"%char; hexdigit (n / 16); hexdigit (n mod 16)].

(** [repr(s)]: single quotes, unless the text has a single quote and no
    double quote. *)
Definition repr (s : string) : string :=
  let l := chars s in
  let q := if existsb (eqc quote1) l && negb (existsb (eqc quote2) l)
           then quote2 else quote1 in
  of_chars (q :: flat_map (escape q) l ++ [q]).

End PyRepr.

(** [str(e)]. *)
Definition py_str (e : PyExn) : string :=
  match e with
  | ValueError msg => msg
  | OverflowError msg => msg
  | OSError errno strerror filename =>
      "[Errno " +:+ pretty errno +:+ "] " +:+ strerror +:+ ": " +:+ PyRepr.repr filename
  end.

Definition isinstance_ValueError (e : PyExn) : bool :=
  match e with ValueError _ => true | _ => false end.

(* ===================================================================== *)
(** ** The filesystem                                                      *)
(* ===================================================================== *)

(** What a path can name. [perm] holds the twelve permission bits. *)
Inductive node : Type :=
  | File (data : string) (perm : Z)
  | Dir (perm : Z)
  | Symlink (target : string).

(** The store is keyed by the path as the calls receive it, and a symbolic
    link holds the path it stands for; the current directory is the entry
    ["."]. The calling process owns every node and is not the superuser, so
    the owner bits decide whether it may write. Looking a path up is not
    subject to permission checks. *)
Record fs : Type := mkFs {
  nodes : gmap string node;
  umask : Z
}.

Inductive event : Type :=
  | EvStat (p : string)
  | EvOpen (p : string)
  | EvWrite (k : string) (s : string)
  | EvClose (k : string)
  | EvChmod (p : string) (m : Z).

(** The calls of the write step, as opposed to the lookups of the checks. *)
Definition is_mutation (ev : event) : bool :=
  match ev with EvStat _ => false | _ => true end.

Module Sys.

Inductive errno : Type := ENOENT | EACCES | ENOTDIR | EISDIR | ELOOP.

Definition errno_number (e : errno) : Z :=
  match e with
  | ENOENT => 2 | EACCES => 13 | ENOTDIR => 20 | EISDIR => 21 | ELOOP => 40
  end.

Definition strerror (e : errno) : string :=
  match e with
  | ENOENT => "No such file or directory"
  | EACCES => "Permission denied"
  | ENOTDIR => "Not a directory"
  | EISDIR => "Is a directory"
  | ELOOP => "Too many levels of symbolic links"
  end.

Definition S_IALLUGO : Z := 4095.     (* 0o7777 *)
Definition MAXSYMLINKS : nat := 40.

Inductive lookup_result : Type :=
  | Found (k : string) (n : node)   (* [n] is a file or a directory *)
  | Missing (k : string)            (* nothing at [k], the end of the chain *)
  | Loop.

(** Follow symbolic links from [p], at most [n] of them. *)
Fixpoint namei (n : nat) (σ : fs) (p : string) : lookup_result :=
  match nodes σ !! p with
  | Some (Symlink t) =>
      match n with
      | O => Loop
      | S n' => namei n' σ t
      end
  | Some nd => Found p nd
  | None => Missing p
  end.

(** [stat(2)]: the node that [p] resolves to. *)
Definition stat (σ : fs) (p : string) : errno + node :=
  match namei MAXSYMLINKS σ p with
  | Found _ nd => inr nd
  | Missing _ => inl ENOENT
  | Loop => inl ELOOP
  end.

Definition owner_can_write (perm : Z) : bool := Z.testbit perm 7.       (* 0o200 *)
Definition owner_can_add_entry (perm : Z) : bool :=
  Z.testbit perm 7 && Z.testbit perm 6.                                  (* 0o300 *)

Definition ends_with_sep (k : string) : bool :=
  match rev (PyStr.chars k) with
  | c :: _ => PyStr.eqc c os_path.sep
  | [] => false
  end.

(** The directory in which the last component of [k] is looked up. *)
Definition parent (k : string) : string :=
  let d := os_path.dirname k in
  if PyStr.truthy d then d else ".".

Definition set_node (σ : fs) (k : string) (nd : node) : fs :=
  mkFs (<[k := nd]> (nodes σ)) (umask σ).

(** [open(2)] with [O_WRONLY|O_CREAT|O_TRUNC] and mode [0o666]: an existing
    file is emptied, a missing one is created empty in its directory with
    the permissions the umask leaves. The result is the new store and the
    key of the opened file. *)
Definition open_w (σ : fs) (p : string) : errno + (fs * string) :=
  match namei MAXSYMLINKS σ p with
  | Loop => inl ELOOP
  | Found k (File _ perm) =>
      if owner_can_write perm then inr (set_node σ k (File "" perm), k)
      else inl EACCES
  | Found _ _ => inl EISDIR
  | Missing k =>
      if negb (PyStr.truthy k) then inl ENOENT
      else if ends_with_sep k then inl EISDIR
      else
        match stat σ (parent k) with
        | inr (Dir perm) =>
            if owner_can_add_entry perm
            then inr (set_node σ k (File "" (Z.land 438 (Z.lnot (umask σ)))), k)
            else inl EACCES
        | inr _ => inl ENOTDIR
        | inl _ => inl ENOENT
        end
  end.

(** [write(2)] at the end of the open file [k]. *)
Definition write (σ : fs) (k : string) (s : string) : fs :=
  match nodes σ !! k with
  | Some (File data perm) => set_node σ k (File (data +:+ s) perm)
  | _ => σ
  end.

(** [chmod(2)]: only the permission bits of [m] are taken. *)
Definition chmod (σ : fs) (p : string) (m : Z) : errno + fs :=
  match namei MAXSYMLINKS σ p with
  | Found k (File data _) => inr (set_node σ k (File data (Z.land m S_IALLUGO)))
  | Found k _ => inr (set_node σ k (Dir (Z.land m S_IALLUGO)))
  | Missing _ => inl ENOENT
  | Loop => inl ELOOP
  end.

(** Contents and permission bits of the file that [p] resolves to. *)
Definition read_file (σ : fs) (p : string) : option string :=
  match stat σ p with inr (File data _) => Some data | _ => None end.

Definition perm_of (σ : fs) (p : string) : option Z :=
  match stat σ p with
  | inr (File _ perm) | inr (Dir perm) => Some perm
  | _ => None
  end.

(** An entry of any kind is stored at [p] itself ([os.path.lexists]). *)
Definition lexists (σ : fs) (p : string) : bool :=
  match nodes σ !! p with Some _ => true | None => false end.

End Sys.

(** The [OSError] that Python raises for a failed system call on [filename]. *)
Definition OSError_of (e : Sys.errno) (filename : string) : PyExn :=
  OSError (Sys.errno_number e) (Sys.strerror e) filename.

(* ===================================================================== *)
(** ** Running Python code: state, events, exceptions, exit                *)
(* ===================================================================== *)

(** A JSON value of the result dictionary. *)
Inductive pyval : Type :=
  | VBool (b : bool)
  | VStr (s : string).

(** How the module hands its answer to the host: the keyword arguments of
    [module.exit_json] or of [module.fail_json]. *)
Inductive Outcome : Type :=
  | ExitJson (kwargs : gmap string pyval)
  | FailJson (kwargs : gmap string pyval).

Inductive res (A : Type) : Type :=
  | Ret (a : A)          (* the block ran to its end *)
  | Raise (e : PyExn)    (* an exception derived from [Exception] is in flight *)
  | Exit (o : Outcome).  (* [SystemExit] is in flight *)
Arguments Ret {A} a.
Arguments Raise {A} e.
Arguments Exit {A} o.

(** A computation reads and updates the store and reports the calls made. *)
Definition M (A : Type) : Type := fs → res A * fs * list event.

Definition ret {A} (a : A) : M A := λ σ, (Ret a, σ, []).

(** The events [ev1] happened before the run [x]. *)
Definition log_before {A} (ev1 : list event) (x : res A * fs * list event)
  : res A * fs * list event :=
  let '(r, σ, ev2) := x in (r, σ, ev1 ++ ev2).

Definition bind {A B} (m : M A) (k : A → M B) : M B := λ σ,
  match m σ with
  | (Ret a, σ1, ev1) => log_before ev1 (k a σ1)
  | (Raise e, σ1, ev1) => (Raise e, σ1, ev1)
  | (Exit o, σ1, ev1) => (Exit o, σ1, ev1)
  end.

Notation "'let*' x ':=' m 'in' k" := (bind m (λ x, k))
  (at level 10, x name, m at level 100, k at level 200, only parsing).
Notation "'run' m 'in' k" := (bind m (λ _, k))
  (at level 10, m at level 100, k at level 200, only parsing).

Definition raise {A} (e : PyExn) : M A := λ σ, (Raise e, σ, []).
Definition emit (ev : event) : M unit := λ σ, (Ret tt, σ, [ev]).
Definition get_fs : M fs := λ σ, (Ret σ, σ, []).
Definition put_fs (σ' : fs) : M unit := λ _, (Ret tt, σ', []).

(** [try: m  except C as e: h e], where [catches] tells the instances of
    [C]. [SystemExit] is never among them. *)
Definition try_except {A} (catches : PyExn → bool) (m : M A) (h : PyExn → M A) : M A :=
  λ σ,
  match m σ with
  | (Raise e, σ1, ev1) =>
      if catches e then log_before ev1 (h e σ1) else (Raise e, σ1, ev1)
  | other => other
  end.

(** [try: m  finally: c]: [c] runs however [m] ends; what [c] raises
    replaces the way [m] ended. *)
Definition try_finally {A} (m : M A) (c : M unit) : M A := λ σ,
  let '(r, σ1, ev1) := m σ in
  match c σ1 with
  | (Ret _, σ2, ev2) => (r, σ2, ev1 ++ ev2)
  | (Raise e, σ2, ev2) => (Raise e, σ2, ev1 ++ ev2)
  | (Exit o, σ2, ev2) => (Exit o, σ2, ev1 ++ ev2)
  end.

(* ===================================================================== *)
(** ** The library calls of the module                                     *)
(* ===================================================================== *)

Module os.

(** [os.stat(p)] *)
Definition stat (p : string) : M node :=
  run emit (EvStat p) in
  if PyStr.has_nul p then raise (ValueError "embedded null byte")
  else
    let* σ := get_fs in
    match Sys.stat σ p with
    | inr nd => ret nd
    | inl e => raise (OSError_of e p)
    end.

Definition catches_OSError_ValueError (e : PyExn) : bool :=
  match e with OSError _ _ _ | ValueError _ => true | _ => false end.

(** [[
      try:
          st = os.stat(s)
      except (OSError, ValueError):
          return False
      return stat.S_ISDIR(st.st_mode)
    ]] *)
Definition path_isdir (s : string) : M bool :=
  try_except catches_OSError_ValueError
    (let* st := stat s in
     ret (match st with Dir _ => true | _ => false end))
    (λ _, ret false).

(** [[
      try:
          os.stat(path)
      except (OSError, ValueError):
          return False
      return True
    ]] *)
Definition path_exists (path : string) : M bool :=
  try_except catches_OSError_ValueError
    (run stat path in ret true)
    (λ _, ret false).

Definition INT_MIN : Z := - 2 ^ 31.
Definition INT_MAX : Z := 2 ^ 31 - 1.

(** [os.chmod(path, mode)]: the path and then the mode are converted to
    their C types before the system is called. *)
Definition chmod (path : string) (mode : Z) : M unit :=
  run emit (EvChmod path mode) in
  if PyStr.has_nul path then raise (ValueError "embedded null byte")
  else if negb ((INT_MIN <=? mode) && (mode <=? INT_MAX))
  then raise (OverflowError "Python int too large to convert to C int")
  else
    let* σ := get_fs in
    match Sys.chmod σ path mode with
    | inr σ' => put_fs σ'
    | inl e => raise (OSError_of e path)
    end.

End os.

(** An open text file: the key of the file it writes to. A file of the
    store holds the text written to it; the encoding of text to bytes and
    the buffering of the file object are not part of the model. *)
Record file : Type := mkFile { f_key : string }.

(** [open(path, 'w')] *)
Definition open_w (path : string) : M file :=
  run emit (EvOpen path) in
  if PyStr.has_nul path then raise (ValueError "embedded null byte")
  else
    let* σ := get_fs in
    match Sys.open_w σ path with
    | inr (σ', k) => run put_fs σ' in ret (mkFile k)
    | inl e => raise (OSError_of e path)
    end.

(** [f.write(s)] *)
Definition f_write (f : file) (s : string) : M unit :=
  run emit (EvWrite (f_key f) s) in
  let* σ := get_fs in
  put_fs (Sys.write σ (f_key f) s).

(** [f.close()] *)
Definition f_close (f : file) : M unit := emit (EvClose (f_key f)).

(** [with open(path, 'w') as f: body f]: the file is closed on every way
    out of the body. *)
Definition with_open_w {A} (path : string) (body : file → M A) : M A :=
  let* f := open_w path in
  try_finally (body f) (f_close f).

(** [int(x, 8)] as a computation. *)
Definition int (x : string) : M Z :=
  match PyInt.int8 x with
  | Some z => ret z
  | None =>
      raise (ValueError ("invalid literal for int() with base 8: " +:+ PyRepr.repr x))
  end.

(* ===================================================================== *)
(** ** [AnsibleModule]                                                     *)
(* ===================================================================== *)

(** The task as the playbook gives it; [mode] may be left out. *)
Record task_args : Type := mkArgs {
  arg_path : string;
  arg_content : string;
  arg_mode : option string
}.

Record module_params : Type := mkParams {
  path : string;
  content : string;
  mode : string
}.

Record AnsibleModule_t : Type := mkModule {
  params : module_params;
  check_mode : bool
}.

(** [AnsibleModule(argument_spec=module_args, supports_check_mode=True)]
    with [mode=dict(type='str', default='0644')]. The second argument is the
    check-mode flag of the host. *)
Definition AnsibleModule (args : task_args) (check : bool) : AnsibleModule_t :=
  mkModule
    (mkParams (arg_path args) (arg_content args) (default "0644" (arg_mode args)))
    check.

Definition exit_json {A} (kwargs : gmap string pyval) : M A :=
  λ σ, (Exit (ExitJson kwargs), σ, []).

Definition fail_json {A} (kwargs : gmap string pyval) : M A :=
  λ σ, (Exit (FailJson kwargs), σ, []).

(* ===================================================================== *)
(** ** The module                                                          *)
(* ===================================================================== *)

(** [[
      def write_file(path, content, mode):
          with open(path, 'w') as f:
              f.write(content)
          os.chmod(path, int(mode, 8))
    ]] *)
Definition write_file (path content mode : string) : M unit :=
  run with_open_w path (λ f, f_write f content) in
  let* m := int mode in
  os.chmod path m.

Definition msg_invalid_mode (mode : string) : string :=
  "Invalid mode '" +:+ mode +:+ "'. Use octal format like '0644'.".

Definition msg_parent_missing (dirname : string) : string :=
  "Parent directory does not exist: " +:+ dirname.

Definition msg_write_failed (path : string) (e : PyExn) : string :=
  "Failed to create file '" +:+ path +:+ "': " +:+ py_str e.

(** [run_module()], with the task and the check-mode flag, which the source
    takes from the host through [AnsibleModule], as arguments. The steps are
    those of the source in its order: the [result] dictionary, the module
    object and its three parameters; [int(mode, 8)] under
    [except ValueError]; [result['path']] and [result['content']];
    [if dirname and not os.path.isdir(dirname)], where [isdir] is called
    only for a non-empty [dirname]; [if os.path.exists(path)];
    [result['created'] = True]; [if module.check_mode]; [write_file] under
    [except Exception as e]; and the final [exit_json]. *)
Definition run_module (args : task_args) (check : bool) : M unit :=
  let result : gmap string pyval :=
    {[ "created" := VBool false; "path" := VStr ""; "content" := VStr "" ]} in
  let module := AnsibleModule args check in
  let path := path (params module) in
  let content := content (params module) in
  let mode := mode (params module) in
  (* Validate mode format *)
  run try_except isinstance_ValueError
        (run int mode in ret tt)
        (λ _, fail_json {[ "msg" := VStr (msg_invalid_mode mode) ]}) in
  let result := <["path" := VStr path]> result in
  let result := <["content" := VStr content]> result in
  (* Check if parent directory exists *)
  let dirname := os_path.dirname path in
  let* missing := (if PyStr.truthy dirname
                   then (let* d := os.path_isdir dirname in ret (negb d))
                   else ret false) in
  run (if missing
       then fail_json (<["msg" := VStr (msg_parent_missing dirname)]> result)
       else ret tt) in
  (* Check if file already exists *)
  let* ex := os.path_exists path in
  run (if ex
       then exit_json (<["created" := VBool false]> result)
       else ret tt) in
  (* File does not exist -> create it *)
  let result := <["created" := VBool true]> result in
  run (if check_mode module then exit_json result else ret tt) in
  (* Write the file *)
  run try_except (λ _, true)
        (write_file path content mode)
        (λ e, fail_json (<["msg" := VStr (msg_write_failed path e)]> result)) in
  exit_json result.

(** [[
      def main():
          run_module()
    ]] *)
Definition main (args : task_args) (check : bool) : M unit := run_module args check.

(* ===================================================================== *)
(** ** Vocabulary for the properties                                       *)
(* ===================================================================== *)

(** The three parts of a finished run. *)
Definition outcome_of {A} (x : res A * fs * list event) : res A := x.1.1.
Definition final_fs {A} (x : res A * fs * list event) : fs := x.1.2.
Definition events_of {A} (x : res A * fs * list event) : list event := x.2.

(** A test of the module answers [True] in the store [σ]. *)
Definition holds (σ : fs) (m : M bool) : bool :=
  match m σ with (Ret true, _, _) => true | _ => false end.

Definition isdir (σ : fs) (p : string) : bool := holds σ (os.path_isdir p).
Definition exists_ (σ : fs) (p : string) : bool := holds σ (os.path_exists p).

(** The condition under which the parent check of [run_module] lets the run
    go on: [not (dirname and not os.path.isdir(dirname))]. *)
Definition parent_ok (σ : fs) (path : string) : bool :=
  negb (PyStr.truthy (os_path.dirname path)) || isdir σ (os_path.dirname path).

(** The calls made by the parent check and the existence check. *)
Definition prechecks (path : string) : list event :=
  (if PyStr.truthy (os_path.dirname path) then [EvStat (os_path.dirname path)] else [])
  ++ [EvStat path].

(** Some call asked the system to change something. *)
Definition wrote (ev : list event) : bool := existsb is_mutation ev.

(** The mode the module works with: the task's, or the default. *)
Definition the_mode (args : task_args) : string := default "0644" (arg_mode args).

Definition in_C_int (m : Z) : bool := (os.INT_MIN <=? m) && (m <=? os.INT_MAX).

Definition not_symlink (nd : node) : bool :=
  match nd with Symlink _ => false | _ => true end.

(** [msg] has [s] somewhere in it. *)
Definition mentions (msg s : string) : Prop := ∃ pre post, msg = pre +:+ s +:+ post.

(** The [result] dictionary once [path] and [content] are filled in. *)
Definition result_dict (path content : string) (created : bool) : gmap string pyval :=
  {[ "created" := VBool created; "path" := VStr path; "content" := VStr content ]}.

(** The ways the module ends, named as in the design: the three
    [fail_json] calls and the [exit_json] calls. *)
Definition Success (path content : string) (created : bool) : Outcome :=
  ExitJson (result_dict path content created).

Definition InvalidMode (mode : string) : Outcome :=
  FailJson {[ "msg" := VStr (msg_invalid_mode mode) ]}.

Definition MissingParentDirectory (path content : string) : Outcome :=
  FailJson (<["msg" := VStr (msg_parent_missing (os_path.dirname path))]>
              (result_dict path content false)).

Definition WriteFailed (path content : string) (e : PyExn) : Outcome :=
  FailJson (<["msg" := VStr (msg_write_failed path e)]> (result_dict path content true)).

(** The keyword arguments handed to the host, and whether the host is told
    of a failure. *)
Definition payload (o : Outcome) : gmap string pyval :=
  match o with ExitJson kw | FailJson kw => kw end.

Definition is_failure (o : Outcome) : bool :=
  match o with FailJson _ => true | ExitJson _ => false end.

(** The answer of the module once [write_file] has ended as [r]. *)
Definition write_outcome (path content : string) (r : res unit) : Outcome :=
  match r with
  | Ret _ => Success path content true
  | Raise e => WriteFailed path content e
  | Exit o => o
  end.

(** The run gets as far as the write step (or, in check mode, as far as
    predicting it): the mode parses, the parent check passes and nothing is
    found at the path. *)
Definition reaches_write_step (args : task_args) (σ : fs) : bool :=
  match PyInt.int8 (the_mode args) with
  | None => false
  | Some _ => parent_ok σ (arg_path args) && negb (exists_ σ (arg_path args))
  end.

(** Every entry of the store lies in a directory: the parent check of the
    module would pass for its path. *)
Definition fs_wf (σ : fs) : bool :=
  bool_decide (map_Forall (λ p _, parent_ok σ p = true) (nodes σ)).

(** A sequence of invocations, each on the store the previous one left. *)
Fixpoint invoke_all (calls : list (task_args * bool)) (σ : fs) : list (res unit) * fs :=
  match calls with
  | [] => ([], σ)
  | (args, check) :: rest =>
      let x := run_module args check σ in
      let '(rs, σ') := invoke_all rest (final_fs x) in
      (outcome_of x :: rs, σ')
  end.

(** The text is made of the digits 0 to 7. *)
Definition is_octal_digit (c : ascii) : bool :=
  (48 <=? PyStr.ord c) && (PyStr.ord c <=? 55).

(** The number that a row of octal digits writes, read from the left. *)
Fixpoint octal_value_from (acc : Z) (l : list ascii) : Z :=
  match l with
  | [] => acc
  | c :: l' => octal_value_from (acc * 8 + (PyStr.ord c - 48)) l'
  end.

Definition octal_value (s : string) : Z := octal_value_from 0 (PyStr.chars s).

(** A character that no text accepted by [int(x, 8)] contains: it is not a
    blank, a sign, an underscore, the letter of the [0o] prefix or an octal
    digit. *)
Definition never_in_octal_text (c : ascii) : bool :=
  negb (PyInt.Py_ISSPACE c || is_octal_digit c
        || PyStr.eqc c "+"%char || PyStr.eqc c "-"%char || PyStr.eqc c "_"%char
        || PyStr.eqc c "o"%char || PyStr.eqc c "O"%char
        || (PyStr.ord c =? 133) || (PyStr.ord c =? 160)).

(** What a call of the run may be about: the lookups are of the path and
    of its directory part, [open] and [os.chmod] are given the path,
    [os.chmod] the number that the mode parses to, and [write] the
    content. *)
Definition call_is_about (args : task_args) (ev : event) : Prop :=
  match ev with
  | EvStat p => p = os_path.dirname (arg_path args) ∨ p = arg_path args
  | EvOpen p => p = arg_path args
  | EvWrite _ s => s = arg_content args
  | EvClose _ => True
  | EvChmod p m => p = arg_path args ∧ PyInt.int8 (the_mode args) = Some m
  end.

(** *** Stores used as examples

    Permission bits are written in decimal: 493 is 0o755, 1023 is 0o1777,
    365 is 0o555, 420 is 0o644; the umask 18 is 0o022. *)

Module Examples.

Definition newline : string := String "010"%char "".

(** [/] and a world-writable [/tmp]. *)
Definition fs_tmp : fs :=
  mkFs {[ "/" := Dir 493; "/tmp" := Dir 1023 ]} 18.

(** The same with an empty directory [/tmp/test1]. *)
Definition fs_test1 : fs :=
  mkFs {[ "/" := Dir 493; "/tmp" := Dir 1023; "/tmp/test1" := Dir 493 ]} 18.

(** [fs_test1] once [placeholder.txt] has been created in it. *)
Definition fs_test1_written : fs :=
  mkFs {[ "/" := Dir 493; "/tmp" := Dir 1023; "/tmp/test1" := Dir 493;
          "/tmp/test1/placeholder.txt" := File ("hello" +:+ newline) 420 ]} 18.

(** [/data/link] is a symbolic link to [/data/target], which does not exist. *)
Definition fs_link : fs :=
  mkFs {[ "/" := Dir 493; "/data" := Dir 493;
          "/data/link" := Symlink "/data/target" ]} 18.

(** What [fs_link] becomes when ["x"] is written through the link with
    mode 0644. *)
Definition fs_link_written : fs :=
  mkFs {[ "/" := Dir 493; "/data" := Dir 493;
          "/data/link" := Symlink "/data/target";
          "/data/target" := File "x" 420 ]} 18.

(** [/ro] is a directory that nobody may write to. *)
Definition fs_ro : fs :=
  mkFs {[ "/" := Dir 493; "/ro" := Dir 365 ]} 18.

(** A store that is not well formed: an entry whose directory is absent. *)
Definition fs_orphan : fs :=
  mkFs {[ "/a/b" := File "old" 420 ]} 18.

End Examples.

(* ===================================================================== *)
(** ** Checks of the library model on concrete texts                       *)
(* ===================================================================== *)

Example int8_0644 : PyInt.int8 "0644" = Some 420. Proof. reflexivity. Qed.
Example int8_neg : PyInt.int8 "-644" = Some (-420). Proof. reflexivity. Qed.
Example int8_sp : PyInt.int8 " 644 " = Some 420. Proof. reflexivity. Qed.
Example int8_0o : PyInt.int8 "0o644" = Some 420. Proof. reflexivity. Qed.
Example int8_0o_ : PyInt.int8 "0o_6_4_4" = Some 420. Proof. reflexivity. Qed.
Example int8_bad1 : PyInt.int8 "0o__644" = None. Proof. reflexivity. Qed.
Example int8_bad2 : PyInt.int8 "644_" = None. Proof. reflexivity. Qed.
Example int8_bad3 : PyInt.int8 "89" = None. Proof. reflexivity. Qed.
Example int8_bad4 : PyInt.int8 "" = None. Proof. reflexivity. Qed.
Example int8_bad5 : PyInt.int8 "0o" = None. Proof. reflexivity. Qed.
Example int8_bad6 : PyInt.int8 "+ 7" = None. Proof. reflexivity. Qed.
Example int8_bad7 : PyInt.int8 "abc" = None. Proof. reflexivity. Qed.
Example int8_bad8 : PyInt.int8 "78" = None. Proof. reflexivity. Qed.
Example dirname1 : os_path.dirname "/tmp/test1/placeholder.txt" = "/tmp/test1". Proof. reflexivity. Qed.
Example dirname2 : os_path.dirname "file.txt" = "". Proof. reflexivity. Qed.
Example dirname3 : os_path.dirname "/file" = "/". Proof. reflexivity. Qed.
Example dirname4 : os_path.dirname "//file" = "//". Proof. reflexivity. Qed.
Example dirname5 : os_path.dirname "a//b" = "a". Proof. reflexivity. Qed.
Example dirname6 : os_path.dirname "a/b/" = "a/b". Proof. reflexivity. Qed.

(* ===================================================================== *)
(** ** How the library calls run                                           *)
(* ===================================================================== *)

Lemma stat_run p σ :
  os.stat p σ =
    if PyStr.has_nul p then (Raise (ValueError "embedded null byte"), σ, [EvStat p])
    else match Sys.stat σ p with
         | inr nd => (Ret nd, σ, [EvStat p])
         | inl e => (Raise (OSError_of e p), σ, [EvStat p])
         end.
Proof.
  unfold os.stat, bind, emit, raise, get_fs, ret.
  destruct (PyStr.has_nul p); [reflexivity|].
  destruct (Sys.stat σ p); reflexivity.
Qed.

Lemma path_isdir_run p σ :
  os.path_isdir p σ = (Ret (isdir σ p), σ, [EvStat p]).
Proof.
  unfold isdir, holds, os.path_isdir, try_except, bind. rewrite stat_run.
  destruct (PyStr.has_nul p); [reflexivity|].
  destruct (Sys.stat σ p) as [e|nd]; [reflexivity|].
  by destruct nd.
Qed.

Lemma path_exists_run p σ :
  os.path_exists p σ = (Ret (exists_ σ p), σ, [EvStat p]).
Proof.
  unfold exists_, holds, os.path_exists, try_except, bind. rewrite stat_run.
  destruct (PyStr.has_nul p); [reflexivity|].
  destruct (Sys.stat σ p) as [e|nd]; reflexivity.
Qed.

Lemma result_filled (path content : string) :
  <["content" := VStr content]>
    (<["path" := VStr path]>
       ({[ "created" := VBool false; "path" := VStr ""; "content" := VStr "" ]}
          : gmap string pyval))
  = result_dict path content false.
Proof.
  unfold result_dict. apply map_eq. intros k.
  destruct (decide (k = "created")) as [->|?]; [by simplify_map_eq|].
  destruct (decide (k = "content")) as [->|?]; [by simplify_map_eq|].
  destruct (decide (k = "path")) as [->|?]; [by simplify_map_eq|].
  by simplify_map_eq.
Qed.

Lemma result_set_created (path content : string) (b b' : bool) :
  <["created" := VBool b]> (result_dict path content b') = result_dict path content b.
Proof. unfold result_dict. apply insert_insert_eq. Qed.

Lemma bind_run {A B} (m : M A) (k : A → M B) σ :
  bind m k σ =
    match m σ with
    | (Ret a, σ1, ev1) => log_before ev1 (k a σ1)
    | (Raise e, σ1, ev1) => (Raise e, σ1, ev1)
    | (Exit o, σ1, ev1) => (Exit o, σ1, ev1)
    end.
Proof. reflexivity. Qed.

Lemma try_except_run {A} c (m : M A) h σ :
  try_except c m h σ =
    match m σ with
    | (Raise e, σ1, ev1) =>
        if c e then log_before ev1 (h e σ1) else (Raise e, σ1, ev1)
    | other => other
    end.
Proof. reflexivity. Qed.

Lemma log_before_nil {A} (x : res A * fs * list event) : log_before [] x = x.
Proof. by destruct x as [[r σ] ev]. Qed.

Lemma validate_mode_run mode (kw : gmap string pyval) σ :
  try_except isinstance_ValueError (run int mode in ret tt) (λ _, fail_json kw) σ =
    match PyInt.int8 mode with
    | Some _ => (Ret tt, σ, [])
    | None => (Exit (FailJson kw), σ, [])
    end.
Proof.
  rewrite try_except_run, bind_run. unfold int. by destruct (PyInt.int8 mode).
Qed.

Lemma parent_check_run path σ :
  (if PyStr.truthy (os_path.dirname path)
   then (let* d := os.path_isdir (os_path.dirname path) in ret (negb d))
   else ret false) σ
  = (Ret (negb (parent_ok σ path)), σ,
     if PyStr.truthy (os_path.dirname path) then [EvStat (os_path.dirname path)] else []).
Proof.
  unfold parent_ok. destruct (PyStr.truthy (os_path.dirname path)); [|reflexivity].
  rewrite bind_run, path_isdir_run. reflexivity.
Qed.

(** [run_module] step by step: the answer, the final store and the calls
    made, according to the tests of the module. *)
Lemma run_module_unfold args chk σ :
  run_module args chk σ =
    match PyInt.int8 (the_mode args) with
    | None => (Exit (InvalidMode (the_mode args)), σ, [])
    | Some _ =>
        if negb (parent_ok σ (arg_path args))
        then (Exit (MissingParentDirectory (arg_path args) (arg_content args)), σ,
              [EvStat (os_path.dirname (arg_path args))])
        else if exists_ σ (arg_path args)
        then (Exit (Success (arg_path args) (arg_content args) false), σ,
              prechecks (arg_path args))
        else if chk
        then (Exit (Success (arg_path args) (arg_content args) true), σ,
              prechecks (arg_path args))
        else
          match write_file (arg_path args) (arg_content args) (the_mode args) σ with
          | (Ret _, σ', ev) =>
              (Exit (Success (arg_path args) (arg_content args) true), σ',
               prechecks (arg_path args) ++ ev)
          | (Raise e, σ', ev) =>
              (Exit (WriteFailed (arg_path args) (arg_content args) e), σ',
               prechecks (arg_path args) ++ ev)
          | (Exit o, σ', ev) => (Exit o, σ', prechecks (arg_path args) ++ ev)
          end
    end.
Proof.
  unfold run_module.
  change (path (params (AnsibleModule args chk))) with (arg_path args).
  change (content (params (AnsibleModule args chk))) with (arg_content args).
  change (mode (params (AnsibleModule args chk))) with (the_mode args).
  change (check_mode (AnsibleModule args chk)) with chk.
  set (p := arg_path args). set (c := arg_content args). set (md := the_mode args).
  rewrite result_filled, !result_set_created.
  rewrite bind_run, validate_mode_run.
  destruct (PyInt.int8 md) as [m|]; [|reflexivity].
  rewrite log_before_nil, bind_run, parent_check_run.
  destruct (negb (parent_ok σ p)) eqn:Hp.
  { rewrite bind_run. unfold fail_json, MissingParentDirectory.
    unfold parent_ok in Hp.
    destruct (PyStr.truthy (os_path.dirname p)); [|discriminate].
    reflexivity. }
  rewrite bind_run. unfold ret at 1. rewrite log_before_nil, bind_run, path_exists_run.
  unfold prechecks, Success, WriteFailed.
  destruct (exists_ σ p).
  { rewrite bind_run. cbv [log_before exit_json]. by rewrite app_nil_r. }
  rewrite bind_run. unfold ret at 1. rewrite log_before_nil, bind_run.
  destruct chk.
  { cbv [log_before exit_json]. by rewrite app_nil_r. }
  unfold ret at 1. rewrite log_before_nil, bind_run, try_except_run.
  destruct (write_file p c md σ) as [[[u|e|o] σ'] ev].
  - cbv [log_before exit_json]. by rewrite app_nil_r, <- app_assoc.
  - cbv [log_before fail_json]. by rewrite app_nil_r, <- app_assoc.
  - cbv [log_before]. by rewrite <- app_assoc.
Qed.

Lemma open_w_run path σ :
  open_w path σ =
    if PyStr.has_nul path then (Raise (ValueError "embedded null byte"), σ, [EvOpen path])
    else match Sys.open_w σ path with
         | inr (σ', k) => (Ret (mkFile k), σ', [EvOpen path])
         | inl e => (Raise (OSError_of e path), σ, [EvOpen path])
         end.
Proof.
  unfold open_w. rewrite bind_run. cbv [emit log_before].
  destruct (PyStr.has_nul path); [reflexivity|].
  rewrite bind_run. cbv [get_fs log_before].
  destruct (Sys.open_w σ path) as [e|[σ' k]]; reflexivity.
Qed.

Lemma chmod_run path m σ :
  os.chmod path m σ =
    if PyStr.has_nul path then (Raise (ValueError "embedded null byte"), σ, [EvChmod path m])
    else if negb (in_C_int m)
    then (Raise (OverflowError "Python int too large to convert to C int"), σ, [EvChmod path m])
    else match Sys.chmod σ path m with
         | inr σ' => (Ret tt, σ', [EvChmod path m])
         | inl e => (Raise (OSError_of e path), σ, [EvChmod path m])
         end.
Proof.
  unfold os.chmod, in_C_int. rewrite bind_run. cbv [emit log_before].
  destruct (PyStr.has_nul path); [reflexivity|].
  destruct (negb _); [reflexivity|].
  rewrite bind_run. cbv [get_fs log_before].
  destruct (Sys.chmod σ path m) as [e|σ']; reflexivity.
Qed.

Lemma with_open_w_write_run path content σ :
  with_open_w path (λ f, f_write f content) σ =
    if PyStr.has_nul path then (Raise (ValueError "embedded null byte"), σ, [EvOpen path])
    else match Sys.open_w σ path with
         | inr (σ', k) =>
             (Ret tt, Sys.write σ' k content,
              [EvOpen path; EvWrite k content; EvClose k])
         | inl e => (Raise (OSError_of e path), σ, [EvOpen path])
         end.
Proof.
  unfold with_open_w. rewrite bind_run, open_w_run.
  destruct (PyStr.has_nul path); [reflexivity|].
  destruct (Sys.open_w σ path) as [e|[σ' k]]; reflexivity.
Qed.

Lemma write_file_run path content mode σ :
  write_file path content mode σ =
    if PyStr.has_nul path then (Raise (ValueError "embedded null byte"), σ, [EvOpen path])
    else match Sys.open_w σ path with
         | inl e => (Raise (OSError_of e path), σ, [EvOpen path])
         | inr (σ1, k) =>
             log_before [EvOpen path; EvWrite k content; EvClose k]
               (bind (int mode) (os.chmod path) (Sys.write σ1 k content))
         end.
Proof.
  unfold write_file. rewrite bind_run, with_open_w_write_run.
  destruct (PyStr.has_nul path); [reflexivity|].
  destruct (Sys.open_w σ path) as [e|[σ' k]]; reflexivity.
Qed.

Lemma namei_Found n σ p k nd :
  Sys.namei n σ p = Sys.Found k nd → nodes σ !! k = Some nd ∧ not_symlink nd = true.
Proof.
  revert p. induction n as [|n IH]; intros p; cbn;
    destruct (nodes σ !! p) as [[d q|q|t]|] eqn:Hp; intros H;
    try discriminate; try (injection H as <- <-; done); eauto.
Qed.

Lemma namei_Missing n σ p k :
  Sys.namei n σ p = Sys.Missing k → nodes σ !! k = None.
Proof.
  revert p. induction n as [|n IH]; intros p; cbn;
    destruct (nodes σ !! p) as [[d q|q|t]|] eqn:Hp; intros H;
    try discriminate; try (injection H as <-; done); eauto.
Qed.

(** Storing a file or a directory at the end of the chain from [p] makes
    [p] resolve to it. *)
Lemma namei_set_node n σ p k nd :
  (Sys.namei n σ p = Sys.Missing k ∨ ∃ nd0, Sys.namei n σ p = Sys.Found k nd0) →
  not_symlink nd = true →
  Sys.namei n (Sys.set_node σ k nd) p = Sys.Found k nd.
Proof.
  intros H Hnd. revert p H. induction n as [|n IH]; intros p H.
  - cbn in *. destruct (nodes σ !! p) as [[d q|q|t]|] eqn:Hp.
    all: destruct H as [H|[nd0 H]]; try discriminate.
    all: try (injection H as <-); try (injection H as <- _).
    all: rewrite lookup_insert_eq; by destruct nd.
  - cbn in *. destruct (nodes σ !! p) as [[d q|q|t]|] eqn:Hp.
    1,2,4: destruct H as [H|[nd0 H]]; try discriminate;
      try (injection H as <-); try (injection H as <- _);
      rewrite lookup_insert_eq; by destruct nd.
    assert (k ≠ p) as Hne.
    { intros ->. destruct H as [H|[nd0 H]].
      - apply namei_Missing in H. congruence.
      - apply namei_Found in H as [H1 H2]. rewrite Hp in H1.
        injection H1 as <-. discriminate. }
    rewrite lookup_insert_ne by done. rewrite Hp. by apply IH.
Qed.

Lemma open_w_inr σ p σ1 k :
  Sys.open_w σ p = inr (σ1, k) →
  ∃ q, σ1 = Sys.set_node σ k (File "" q) ∧
       Sys.namei Sys.MAXSYMLINKS σ1 p = Sys.Found k (File "" q).
Proof.
  unfold Sys.open_w. intros H.
  destruct (Sys.namei Sys.MAXSYMLINKS σ p) as [k0 [d q|q|t]|k0|] eqn:Hn; try discriminate.
  - destruct (Sys.owner_can_write q); [|discriminate].
    injection H as <- <-. exists q. split; [done|].
    apply namei_set_node; eauto.
  - destruct (negb (PyStr.truthy k0)); [discriminate|].
    destruct (Sys.ends_with_sep k0); [discriminate|].
    destruct (Sys.stat σ (Sys.parent k0)) as [e|[d q|q|t]]; try discriminate.
    destruct (Sys.owner_can_add_entry q); [|discriminate].
    injection H as <- <-. eexists. split; [done|].
    apply namei_set_node; eauto.
Qed.

(** What a successful [write_file] leaves behind. *)
Lemma write_file_Ret path content mode σ σ' ev :
  write_file path content mode σ = (Ret tt, σ', ev) →
  ∃ m k, PyInt.int8 mode = Some m ∧ in_C_int m = true ∧
    ev = [EvOpen path; EvWrite k content; EvClose k; EvChmod path m] ∧
    Sys.stat σ' path = inr (File content (Z.land m Sys.S_IALLUGO)).
Proof.
  rewrite write_file_run. destruct (PyStr.has_nul path) eqn:Hnul; [discriminate|].
  destruct (Sys.open_w σ path) as [e|[σ1 k]] eqn:Ho; [discriminate|].
  apply open_w_inr in Ho as (q & -> & Hn1).
  rewrite bind_run. unfold int.
  destruct (PyInt.int8 mode) as [m|]; [|discriminate].
  cbv [ret]. rewrite log_before_nil, chmod_run, Hnul.
  destruct (in_C_int m) eqn:Hm; [|discriminate]. cbn [negb].
  unfold Sys.write. cbn [Sys.set_node nodes]. rewrite lookup_insert_eq.
  set (σ2 := Sys.set_node _ k (File ("" +:+ content) q)).
  assert (Sys.namei Sys.MAXSYMLINKS σ2 path = Sys.Found k (File content q)) as Hn2.
  { apply namei_set_node; eauto. }
  unfold Sys.chmod. rewrite Hn2. cbn [log_before]. intros H. injection H as <- <-.
  exists m, k. split_and!; try done.
  unfold Sys.stat. rewrite namei_set_node; eauto.
Qed.

Lemma write_file_shape path content mode σ r σ' ev :
  write_file path content mode σ = (r, σ', ev) →
  (∃ rest, ev = EvOpen path :: rest) ∧ (∀ o, r ≠ Exit o).
Proof.
  rewrite write_file_run. destruct (PyStr.has_nul path) eqn:Hnul.
  { intros [= <- <- <-]. split; [eauto|done]. }
  destruct (Sys.open_w σ path) as [e|[σ1 k]].
  { intros [= <- <- <-]. split; [eauto|done]. }
  rewrite bind_run. unfold int. destruct (PyInt.int8 mode) as [m|].
  2: { intros [= <- <- <-]. split; [eauto|done]. }
  cbv [ret]. rewrite log_before_nil, chmod_run, Hnul.
  destruct (negb (in_C_int m)).
  { intros [= <- <- <-]. split; [eauto|done]. }
  destruct (Sys.chmod _ path m); intros [= <- <- <-]; (split; [eauto|done]).
Qed.

Lemma wrote_prechecks path : wrote (prechecks path) = false.
Proof. unfold prechecks. by destruct (PyStr.truthy _). Qed.


Lemma result_dict_path p c b : result_dict p c b !! "path" = Some (VStr p).
Proof. unfold result_dict. by simplify_map_eq. Qed.


Lemma result_dict_created p c b : result_dict p c b !! "created" = Some (VBool b).
Proof. unfold result_dict. by simplify_map_eq. Qed.

Lemma exists_lookup σ p : exists_ σ p = true → is_Some (nodes σ !! p).
Proof.
  unfold exists_, holds, os.path_exists. rewrite try_except_run, bind_run, stat_run.
  destruct (PyStr.has_nul p); [done|].
  unfold Sys.stat, Sys.MAXSYMLINKS. cbn [Sys.namei].
  destruct (nodes σ !! p); [eauto|done].
Qed.

Lemma fs_wf_parent_ok σ p :
  fs_wf σ = true → exists_ σ p = true → parent_ok σ p = true.
Proof.
  intros Hwf%bool_decide_eq_true [nd Hnd]%exists_lookup. exact (Hwf p nd Hnd).
Qed.

Lemma str_app_cons x (s t : string) : String x s +:+ t = String x (s +:+ t).
Proof. reflexivity. Qed.

Lemma str_app_nil_r (s : string) : s +:+ "" = s.
Proof. induction s as [|x s IH]; [done|]. by rewrite str_app_cons, IH. Qed.

Lemma str_app_assoc (s t u : string) : (s +:+ t) +:+ u = s +:+ t +:+ u.
Proof. induction s as [|x s IH]; [done|]. by rewrite !str_app_cons, IH. Qed.

Lemma mentions_mid pre s post : mentions (pre +:+ s +:+ post) s.
Proof. by exists pre, post. Qed.

Lemma mentions_end pre s : mentions (pre +:+ s) s.
Proof. exists pre, "". by rewrite str_app_nil_r. Qed.

(* ===================================================================== *)
(** ** What the answers of the module hold                                 *)
(* ===================================================================== *)

Lemma land_permission_bits m : 0 ≤ m ≤ 4095 → Z.land m Sys.S_IALLUGO = m.
Proof.
  intros Hm. change Sys.S_IALLUGO with (Z.ones 12).
  rewrite Z.land_ones by lia. apply Z.mod_small. lia.
Qed.

Lemma invoke_all_existing σ p (calls : list (task_args * bool)) :
  fs_wf σ = true → exists_ σ p = true →
  Forall (λ c, arg_path c.1 = p ∧ is_Some (PyInt.int8 (the_mode c.1))) calls →
  invoke_all calls σ
  = (map (λ c, Exit (Success p (arg_content c.1) false)) calls, σ).
Proof.
  intros Hwf He. induction 1 as [|[a chk] calls [Hp [m Hm]] _ IH]; [done|].
  cbn [invoke_all map fst] in *. subst p.
  rewrite run_module_unfold, Hm, (fs_wf_parent_ok _ _ Hwf He), He.
  cbn [negb final_fs outcome_of fst snd]. by rewrite IH.
Qed.

Lemma WriteFailed_payload p c e :
  is_failure (WriteFailed p c e) = true
  ∧ payload (WriteFailed p c e) !! "msg" = Some (VStr (msg_write_failed p e))
  ∧ payload (WriteFailed p c e) !! "created" = Some (VBool true)
  ∧ payload (WriteFailed p c e) !! "path" = Some (VStr p)
  ∧ payload (WriteFailed p c e) !! "content" = Some (VStr c).
Proof.
  unfold WriteFailed, result_dict. cbn [payload is_failure].
  split_and!; by simplify_map_eq.
Qed.

Lemma MissingParentDirectory_payload p c :
  is_failure (MissingParentDirectory p c) = true
  ∧ payload (MissingParentDirectory p c) !! "msg"
    = Some (VStr (msg_parent_missing (os_path.dirname p)))
  ∧ payload (MissingParentDirectory p c) !! "created" = Some (VBool false)
  ∧ payload (MissingParentDirectory p c) !! "path" = Some (VStr p)
  ∧ payload (MissingParentDirectory p c) !! "content" = Some (VStr c).
Proof.
  unfold MissingParentDirectory, result_dict. cbn [payload is_failure].
  split_and!; by simplify_map_eq.
Qed.

Lemma InvalidMode_payload md :
  is_failure (InvalidMode md) = true
  ∧ payload (InvalidMode md) !! "msg" = Some (VStr (msg_invalid_mode md))
  ∧ payload (InvalidMode md) !! "created" = None
  ∧ payload (InvalidMode md) !! "path" = None
  ∧ payload (InvalidMode md) !! "content" = None.
Proof.
  unfold InvalidMode. cbn [payload is_failure].
  split_and!; by simplify_map_eq.
Qed.

Lemma msg_write_failed_mentions p e :
  mentions (msg_write_failed p e) p ∧ mentions (msg_write_failed p e) (py_str e).
Proof.
  unfold msg_write_failed. split; [apply mentions_mid|].
  exists ("Failed to create file '" +:+ p +:+ "': "), "".
  by rewrite str_app_nil_r, !str_app_assoc.
Qed.


Lemma outcome_with_path_is_not_InvalidMode o md v :
  payload o !! "path" = Some v → o ≠ InvalidMode md.
Proof.
  intros Hp ->. destruct (InvalidMode_payload md) as (_ & _ & _ & Hn & _). congruence.
Qed.

Lemma run_module_valid_mode args chk σ m :
  PyInt.int8 (the_mode args) = Some m →
  (∃ o v, outcome_of (run_module args chk σ) = Exit o ∧ payload o !! "path" = Some v)
  ∧ ∃ p rest, events_of (run_module args chk σ) = EvStat p :: rest.
Proof.
  intros Hm. rewrite run_module_unfold, Hm. unfold parent_ok, prechecks.
  destruct (PyStr.truthy (os_path.dirname (arg_path args))).
  all: destruct (isdir σ (os_path.dirname (arg_path args))); cbn [negb orb].
  all: try (split; [eexists _, _; split; [reflexivity|];
                    apply MissingParentDirectory_payload | by eauto]).
  all: destruct (exists_ σ (arg_path args));
    [split; [eexists _, _; split; [reflexivity|apply result_dict_path] | by eauto]|].
  all: destruct chk;
    [split; [eexists _, _; split; [reflexivity|apply result_dict_path] | by eauto]|].
  all: destruct (write_file _ _ _ σ) as [[[u|e|o] σ'] ev] eqn:Hw.
  all: try (apply write_file_shape in Hw as [_ Hne]; by destruct (Hne o)).
  all: split; [eexists _, _; split; [reflexivity|] | by eauto].
  all: first [apply result_dict_path | apply WriteFailed_payload].
Qed.

Lemma WriteFailed_not_others p c e :
  (∀ md, WriteFailed p c e ≠ InvalidMode md)
  ∧ (∀ p' c', WriteFailed p c e ≠ MissingParentDirectory p' c')
  ∧ (∀ p' c' b, WriteFailed p c e ≠ Success p' c' b).
Proof.
  destruct (WriteFailed_payload p c e) as (_ & _ & Hc & Hp & _).
  split_and!.
  - intros md. by eapply outcome_with_path_is_not_InvalidMode.
  - intros p' c' Heq. rewrite Heq in Hc.
    destruct (MissingParentDirectory_payload p' c') as (_ & _ & Hc' & _). congruence.
  - intros p' c' b. discriminate.
Qed.

Lemma Exit_eq {A} (o o' : Outcome) : @Exit A o = Exit o' → o = o'.
Proof. by intros [=]. Qed.

(** A sufficient condition for [write_file] to succeed: the path names
    nothing yet, and the directory of the name at the end of its chain of
    links lets the owner add an entry. *)
Lemma write_file_in_writable_directory path content mode σ k q m :
  PyStr.has_nul path = false →
  Sys.namei Sys.MAXSYMLINKS σ path = Sys.Missing k →
  PyStr.truthy k = true →
  Sys.ends_with_sep k = false →
  Sys.stat σ (Sys.parent k) = inr (Dir q) →
  Sys.owner_can_add_entry q = true →
  PyInt.int8 mode = Some m →
  in_C_int m = true →
  ∃ σ', write_file path content mode σ
        = (Ret tt, σ', [EvOpen path; EvWrite k content; EvClose k; EvChmod path m]).
Proof.
  intros Hnul Hn Hk Hsep Hst Hq Hm Hint.
  rewrite write_file_run, Hnul. unfold Sys.open_w.
  rewrite Hn, Hk, Hsep, Hst, Hq. cbn [negb].
  rewrite bind_run. unfold int. rewrite Hm. cbv [ret].
  rewrite log_before_nil, chmod_run, Hnul, Hint. cbn [negb].
  unfold Sys.write. cbn [Sys.set_node nodes]. rewrite lookup_insert_eq.
  unfold Sys.chmod. rewrite namei_set_node; [|right; eexists|done].
  - eexists. reflexivity.
  - apply namei_set_node; [by left|done].
Qed.

(** Every run ends in one of the calls that hand an answer to the host:
    [run_module] never runs off its end and lets no exception escape. *)
Lemma run_module_always_answers args chk σ :
  ∃ o σ' ev, run_module args chk σ = (Exit o, σ', ev)
    ∧ (o = InvalidMode (the_mode args)
       ∨ o = MissingParentDirectory (arg_path args) (arg_content args)
       ∨ (∃ b, o = Success (arg_path args) (arg_content args) b)
       ∨ (∃ e, o = WriteFailed (arg_path args) (arg_content args) e)).
Proof.
  rewrite run_module_unfold.
  destruct (PyInt.int8 (the_mode args)); [|by eauto 10].
  destruct (negb (parent_ok σ (arg_path args))); [by eauto 10|].
  destruct (exists_ σ (arg_path args)); [by eauto 10|].
  destruct chk; [by eauto 10|].
  destruct (write_file _ _ _ σ) as [[[u|e|o] σ'] ev] eqn:Hw; [by eauto 10..|].
  apply write_file_shape in Hw as [_ Hne]. by destruct (Hne o).
Qed.

(* ===================================================================== *)
(** ** The properties of the module                                        *)
(* ===================================================================== *)

(** *** C1: creation *)

(** C1, as written, fails. A path that does not exist, in an existing
    directory, with a mode that parses as base 8 and with check mode unset,
    does not always end in success: with the mode ["40000000000"] (2^32)
    the file is written, [os.chmod] then raises [OverflowError], and the
    module ends in [fail_json]. The file is left with the permission bits of
    the umask (0o644), not with 2^32. *)
Lemma creation_fails_for_a_mode_beyond_C_int :
  let args := mkArgs "/tmp/new" "hello" (Some "40000000000") in
  let x := run_module args false Examples.fs_tmp in
  PyInt.int8 "40000000000" = Some (2 ^ 32)
  ∧ isdir Examples.fs_tmp (os_path.dirname "/tmp/new") = true
  ∧ exists_ Examples.fs_tmp "/tmp/new" = false
  ∧ outcome_of x
    = Exit (WriteFailed "/tmp/new" "hello"
              (OverflowError "Python int too large to convert to C int"))
  ∧ outcome_of x ≠ Exit (Success "/tmp/new" "hello" true)
  ∧ Sys.read_file (final_fs x) "/tmp/new" = Some "hello"
  ∧ Sys.perm_of (final_fs x) "/tmp/new" = Some 420
  ∧ Sys.perm_of (final_fs x) "/tmp/new" ≠ Some (2 ^ 32).
Proof.
  intros args x. split_and!; try (vm_compute; reflexivity).
  - vm_compute. discriminate.
  - vm_compute. discriminate.
Qed.

(** Even when every call succeeds the permission bits need not be the parsed
    mode: [chmod] takes the twelve permission bits of its argument. With the
    mode ["-644"] the file ends up with 0o7134 (3676). *)
Example negative_mode_sets_masked_bits :
  let args := mkArgs "/tmp/new" "hello" (Some "-644") in
  let x := run_module args false Examples.fs_tmp in
  PyInt.int8 "-644" = Some (-420)
  ∧ outcome_of x = Exit (Success "/tmp/new" "hello" true)
  ∧ Sys.perm_of (final_fs x) "/tmp/new" = Some 3676.
Proof. intros args x. split_and!; vm_compute; reflexivity. Qed.

(** C1 (amended). For a path at which [os.path.exists] finds nothing, whose
    parent check passes (the directory part is empty or is a directory),
    with a mode that parses as base 8 to [m] and with check mode unset: if
    the write and the permission-set raise no error, the module ends in
    [exit_json] with [created = true] and the path and content of the task,
    the file that the path resolves to holds exactly the content, and its
    permission bits are the twelve low bits of [m], which is [m] itself when
    [0 <= m <= 0o7777]. *)
Theorem creation_when_write_succeeds args σ m σ' ev :
  PyInt.int8 (the_mode args) = Some m →
  parent_ok σ (arg_path args) = true →
  exists_ σ (arg_path args) = false →
  write_file (arg_path args) (arg_content args) (the_mode args) σ = (Ret tt, σ', ev) →
  run_module args false σ
  = (Exit (Success (arg_path args) (arg_content args) true), σ',
     prechecks (arg_path args) ++ ev)
  ∧ Sys.read_file σ' (arg_path args) = Some (arg_content args)
  ∧ Sys.perm_of σ' (arg_path args) = Some (Z.land m Sys.S_IALLUGO)
  ∧ (0 ≤ m ≤ 4095 → Sys.perm_of σ' (arg_path args) = Some m).
Proof.
  intros Hm Hp He Hw. rewrite run_module_unfold, Hm, Hp, He, Hw. cbn [negb].
  apply write_file_Ret in Hw as (m' & k & Hm' & _ & _ & Hst).
  assert (m' = m) as -> by congruence.
  unfold Sys.read_file, Sys.perm_of. rewrite Hst.
  split_and!; try done. intros Hr. by rewrite land_permission_bits.
Qed.

(** The scenario of the design: [/tmp/test1/placeholder.txt] with content
    ["hello\n"] and mode ["0644"], the directory being there and the file
    not. *)
Lemma creation_when_write_succeeds_witness :
  let args :=
    mkArgs "/tmp/test1/placeholder.txt" ("hello" +:+ Examples.newline) (Some "0644") in
  run_module args false Examples.fs_test1
  = (Exit (Success (arg_path args) (arg_content args) true), Examples.fs_test1_written,
     prechecks (arg_path args) ++
     [EvOpen (arg_path args); EvWrite (arg_path args) (arg_content args);
      EvClose (arg_path args); EvChmod (arg_path args) 420])
  ∧ Sys.read_file Examples.fs_test1_written (arg_path args) = Some (arg_content args)
  ∧ Sys.perm_of Examples.fs_test1_written (arg_path args)
    = Some (Z.land 420 Sys.S_IALLUGO)
  ∧ (0 ≤ 420 ≤ 4095 →
     Sys.perm_of Examples.fs_test1_written (arg_path args) = Some 420).
Proof.
  intros args.
  apply (creation_when_write_succeeds args Examples.fs_test1 420);
    vm_compute; reflexivity.
Defined.

(** *** C2: an existing target *)

(** C2, as written, fails for a symbolic link whose target is missing: an
    entry is stored at the path, yet [os.path.exists] follows the link and
    answers [False], so the module writes through the link and reports
    [created = true]. *)
Lemma dangling_symlink_is_written_through :
  let args := mkArgs "/data/link" "x" (Some "0644") in
  let x := run_module args false Examples.fs_link in
  fs_wf Examples.fs_link = true
  ∧ Sys.lexists Examples.fs_link "/data/link" = true
  ∧ PyInt.int8 "0644" = Some 420
  ∧ outcome_of x = Exit (Success "/data/link" "x" true)
  ∧ outcome_of x ≠ Exit (Success "/data/link" "x" false)
  ∧ wrote (events_of x) = true
  ∧ final_fs x = Examples.fs_link_written
  ∧ final_fs x ≠ Examples.fs_link.
Proof.
  intros args x. split_and!; try (vm_compute; reflexivity).
  - vm_compute. discriminate.
  - vm_compute. discriminate.
Qed.

(** C2 (amended). In a store where every entry lies in a directory, for a
    path that [os.path.exists] finds (a file, a directory, or a symbolic
    link that resolves to one), any content, any mode that parses as base 8
    and either setting of check mode: the module ends in [exit_json] with
    [created = false] and the path and content of the task, asks the system
    for no change, and leaves the store as it was. Hence any number of
    invocations on that path, each with its own content, valid mode and
    check-mode setting, all report [created = false] and leave the store as
    it was. *)
Theorem existing_target_is_left_alone args chk σ m :
  fs_wf σ = true →
  PyInt.int8 (the_mode args) = Some m →
  exists_ σ (arg_path args) = true →
  run_module args chk σ
  = (Exit (Success (arg_path args) (arg_content args) false), σ, prechecks (arg_path args))
  ∧ wrote (prechecks (arg_path args)) = false
  ∧ ∀ calls : list (task_args * bool),
      Forall (λ c, arg_path c.1 = arg_path args ∧ is_Some (PyInt.int8 (the_mode c.1))) calls →
      invoke_all calls σ
      = (map (λ c, Exit (Success (arg_path args) (arg_content c.1) false)) calls, σ).
Proof.
  intros Hwf Hm He. split_and!.
  - by rewrite run_module_unfold, Hm, (fs_wf_parent_ok _ _ Hwf He), He.
  - apply wrote_prechecks.
  - intros calls Hc. by apply invoke_all_existing.
Qed.

(** The second call of the scenario: the file is there now. *)
Lemma existing_target_is_left_alone_witness :
  let args :=
    mkArgs "/tmp/test1/placeholder.txt" ("hello" +:+ Examples.newline) (Some "0644") in
  run_module args false Examples.fs_test1_written
  = (Exit (Success (arg_path args) (arg_content args) false), Examples.fs_test1_written,
     prechecks (arg_path args))
  ∧ wrote (prechecks (arg_path args)) = false
  ∧ ∀ calls : list (task_args * bool),
      Forall (λ c, arg_path c.1 = arg_path args ∧ is_Some (PyInt.int8 (the_mode c.1))) calls →
      invoke_all calls Examples.fs_test1_written
      = (map (λ c, Exit (Success (arg_path args) (arg_content c.1) false)) calls,
         Examples.fs_test1_written).
Proof.
  intros args.
  apply (existing_target_is_left_alone args false Examples.fs_test1_written 420);
    vm_compute; reflexivity.
Defined.

(** *** C3: check mode *)

(** C3. For a path at which [os.path.exists] finds nothing, whose parent
    check passes, with a mode that parses as base 8 and with check mode set:
    the module ends in [exit_json] with [created = true], the only calls
    made are the [stat] calls of the two checks, the store is the one it
    started from, and nothing is found at the path afterwards. *)
Theorem check_mode_predicts_without_mutation args σ m :
  PyInt.int8 (the_mode args) = Some m →
  parent_ok σ (arg_path args) = true →
  exists_ σ (arg_path args) = false →
  run_module args true σ
  = (Exit (Success (arg_path args) (arg_content args) true), σ, prechecks (arg_path args))
  ∧ wrote (prechecks (arg_path args)) = false
  ∧ exists_ (final_fs (run_module args true σ)) (arg_path args) = false.
Proof.
  intros Hm Hp He. rewrite run_module_unfold, Hm, Hp, He. cbn [negb].
  split_and!; [done|apply wrote_prechecks|done].
Qed.

Lemma check_mode_predicts_without_mutation_witness :
  run_module (mkArgs "/tmp/new" "hello" None) true Examples.fs_tmp
  = (Exit (Success "/tmp/new" "hello" true), Examples.fs_tmp, prechecks "/tmp/new")
  ∧ wrote (prechecks "/tmp/new") = false
  ∧ exists_ (final_fs (run_module (mkArgs "/tmp/new" "hello" None) true Examples.fs_tmp))
      "/tmp/new" = false.
Proof.
  apply (check_mode_predicts_without_mutation
           (mkArgs "/tmp/new" "hello" None) Examples.fs_tmp 420);
    vm_compute; reflexivity.
Defined.

(** *** C4: an invalid mode *)

(** C4. When the mode does not parse as base 8, the module ends in
    [fail_json] with the message of an invalid mode, which has the mode
    string in it; no call to the filesystem has been made (the list of
    events is empty) and the store is untouched. This holds whatever the
    path, the content and the check-mode setting. *)
Theorem invalid_mode_fails_before_any_access args chk σ :
  PyInt.int8 (the_mode args) = None →
  run_module args chk σ = (Exit (InvalidMode (the_mode args)), σ, [])
  ∧ mentions (msg_invalid_mode (the_mode args)) (the_mode args).
Proof.
  intros Hm. rewrite run_module_unfold, Hm. split; [done|].
  apply mentions_mid.
Qed.

Lemma invalid_mode_fails_before_any_access_witness :
  run_module (mkArgs "/tmp/new" "hello" (Some "89")) false Examples.fs_tmp
  = (Exit (InvalidMode "89"), Examples.fs_tmp, [])
  ∧ mentions (msg_invalid_mode "89") "89".
Proof.
  apply (invalid_mode_fails_before_any_access
           (mkArgs "/tmp/new" "hello" (Some "89")) false Examples.fs_tmp).
  reflexivity.
Defined.

(** *** C5: a missing parent directory *)

(** C5, as written, fails when the mode does not parse: the directory part
    of the path is non-empty and is not a directory, yet the module ends
    with the failure of an invalid mode, before any check of the path. *)
Lemma missing_parent_with_invalid_mode :
  let args := mkArgs "/missing/x" "c" (Some "abc") in
  let x := run_module args false Examples.fs_tmp in
  PyStr.truthy (os_path.dirname "/missing/x") = true
  ∧ isdir Examples.fs_tmp (os_path.dirname "/missing/x") = false
  ∧ outcome_of x = Exit (InvalidMode "abc")
  ∧ outcome_of x ≠ Exit (MissingParentDirectory "/missing/x" "c")
  ∧ events_of x = [].
Proof.
  intros args x. split_and!; try (vm_compute; reflexivity).
  vm_compute. discriminate.
Qed.

(** C5 (amended). With a mode that parses as base 8, for a path whose
    directory part is non-empty and is not a directory: the module ends in
    [fail_json] with the message of a missing parent directory, which has
    the directory part in it, whatever is stored at the path itself and
    whatever the check-mode setting. The only call made is the [stat] of the
    directory part: the existence of the path is never looked at. *)
Theorem missing_parent_fails_whatever_is_at_path args chk σ m :
  PyInt.int8 (the_mode args) = Some m →
  PyStr.truthy (os_path.dirname (arg_path args)) = true →
  isdir σ (os_path.dirname (arg_path args)) = false →
  run_module args chk σ
  = (Exit (MissingParentDirectory (arg_path args) (arg_content args)), σ,
     [EvStat (os_path.dirname (arg_path args))])
  ∧ mentions (msg_parent_missing (os_path.dirname (arg_path args)))
      (os_path.dirname (arg_path args)).
Proof.
  intros Hm Hd Hi. rewrite run_module_unfold, Hm. unfold parent_ok.
  rewrite Hd, Hi. split; [done|]. apply mentions_end.
Qed.

Lemma missing_parent_fails_whatever_is_at_path_witness :
  run_module (mkArgs "/missing/x" "new" None) false Examples.fs_tmp
  = (Exit (MissingParentDirectory "/missing/x" "new"), Examples.fs_tmp,
     [EvStat "/missing"])
  ∧ mentions (msg_parent_missing "/missing") "/missing".
Proof.
  apply (missing_parent_fails_whatever_is_at_path
           (mkArgs "/missing/x" "new" None) false Examples.fs_tmp 420);
    vm_compute; reflexivity.
Defined.

(** The answer does not depend on what is stored at the path: in a store
    (not a well-formed one) with an entry at [/a/b] and no [/a], the
    failure is the same and [/a/b] is never looked at. *)
Example missing_parent_with_entry_at_path :
  Sys.lexists Examples.fs_orphan "/a/b" = true
  ∧ run_module (mkArgs "/a/b" "new" None) false Examples.fs_orphan
    = (Exit (MissingParentDirectory "/a/b" "new"), Examples.fs_orphan, [EvStat "/a"]).
Proof. split; vm_compute; reflexivity. Qed.

(** *** C6: a failed write *)

(** C6. When a run with check mode unset gets to its write step and
    [write_file] raises an exception [e], from [open], [write], [close] or
    [os.chmod], the module ends in [fail_json], not in [exit_json]; the
    message has the path and the text of [e] in it, and the payload has
    [created = true]. *)
Theorem write_error_is_reported_as_failure args σ e σ' ev :
  reaches_write_step args σ = true →
  write_file (arg_path args) (arg_content args) (the_mode args) σ = (Raise e, σ', ev) →
  let o := WriteFailed (arg_path args) (arg_content args) e in
  run_module args false σ = (Exit o, σ', prechecks (arg_path args) ++ ev)
  ∧ is_failure o = true
  ∧ payload o !! "msg" = Some (VStr (msg_write_failed (arg_path args) e))
  ∧ mentions (msg_write_failed (arg_path args) e) (arg_path args)
  ∧ mentions (msg_write_failed (arg_path args) e) (py_str e)
  ∧ payload o !! "created" = Some (VBool true).
Proof.
  intros Hr Hw o. unfold reaches_write_step in Hr. rewrite run_module_unfold, Hw.
  destruct (PyInt.int8 (the_mode args)); [|done].
  apply andb_true_iff in Hr as [-> ->%negb_true_iff]. cbn [negb].
  destruct (WriteFailed_payload (arg_path args) (arg_content args) e)
    as (Hf & Hmsg & Hc & _ & _).
  destruct (msg_write_failed_mentions (arg_path args) e) as [H1 H2].
  by split_and!.
Qed.

(** [/ro] may not be written to: [open] is refused. *)
Lemma write_error_is_reported_as_failure_witness :
  let args := mkArgs "/ro/x" "data" None in
  let e := OSError_of Sys.EACCES "/ro/x" in
  let o := WriteFailed "/ro/x" "data" e in
  run_module args false Examples.fs_ro
  = (Exit o, Examples.fs_ro, prechecks "/ro/x" ++ [EvOpen "/ro/x"])
  ∧ is_failure o = true
  ∧ payload o !! "msg" = Some (VStr (msg_write_failed "/ro/x" e))
  ∧ mentions (msg_write_failed "/ro/x" e) "/ro/x"
  ∧ mentions (msg_write_failed "/ro/x" e) (py_str e)
  ∧ payload o !! "created" = Some (VBool true).
Proof.
  intros args e o.
  apply (write_error_is_reported_as_failure args Examples.fs_ro e
           Examples.fs_ro [EvOpen "/ro/x"]);
    vm_compute; reflexivity.
Defined.

(** The permission-set can fail after the write went through: the file is
    there, with the permissions the umask left, and the run is a failure. *)
Example chmod_error_after_write :
  let args := mkArgs "/tmp/new" "hello" (Some "0o20000000000") in
  let x := run_module args false Examples.fs_tmp in
  outcome_of x
  = Exit (WriteFailed "/tmp/new" "hello"
            (OverflowError "Python int too large to convert to C int"))
  ∧ events_of x
    = [EvStat "/tmp"; EvStat "/tmp/new"; EvOpen "/tmp/new";
       EvWrite "/tmp/new" "hello"; EvClose "/tmp/new"; EvChmod "/tmp/new" (2 ^ 31)]
  ∧ Sys.read_file (final_fs x) "/tmp/new" = Some "hello".
Proof. intros args x. split_and!; vm_compute; reflexivity. Qed.

Example write_failed_message :
  msg_write_failed "/ro/x" (OSError_of Sys.EACCES "/ro/x")
  = "Failed to create file '/ro/x': [Errno 13] Permission denied: '/ro/x'".
Proof. vm_compute. reflexivity. Qed.

(** *** C7: the payload of a failure *)

(** C7 does not hold of the code. For the task with path [/tmp/new], content
    ["hello"] and mode ["abc"] the module ends in the failure of an invalid
    mode, whose payload is the message alone: it has neither the [path] nor
    the [content] field. The other two failures do carry them
    ([MissingParentDirectory_payload], [WriteFailed_payload]). *)
Theorem invalid_mode_failure_lacks_path_and_content :
  let args := mkArgs "/tmp/new" "hello" (Some "abc") in
  let x := run_module args false Examples.fs_tmp in
  outcome_of x = Exit (InvalidMode "abc")
  ∧ payload (InvalidMode "abc")
    = {[ "msg" := VStr "Invalid mode 'abc'. Use octal format like '0644'." ]}
  ∧ payload (InvalidMode "abc") !! "path" = None
  ∧ payload (InvalidMode "abc") !! "content" = None.
Proof.
  intros args x. split_and!; vm_compute; reflexivity.
Qed.

(** *** C8: the result of a success *)



(** *** C9: which modes are refused *)

(** C9. The module ends with the failure of an invalid mode exactly when
    [int(mode, 8)] raises [ValueError]. The texts ["-644"], [" 644 "] and
    ["0o644"] parse (to -420, 420 and 420), so a task with one of them as
    its mode is not refused: the run goes on to the filesystem, its first
    call being a [stat]. *)
Theorem invalid_mode_iff_int_raises args chk σ :
  (outcome_of (run_module args chk σ) = Exit (InvalidMode (the_mode args))
   ↔ ∃ msg, outcome_of (int (the_mode args) σ) = Raise (ValueError msg))
  ∧ (PyInt.int8 "-644" = Some (-420)
     ∧ PyInt.int8 " 644 " = Some 420
     ∧ PyInt.int8 "0o644" = Some 420)
  ∧ (the_mode args ∈ ["-644"; " 644 "; "0o644"] →
     outcome_of (run_module args chk σ) ≠ Exit (InvalidMode (the_mode args))
     ∧ ∃ p rest, events_of (run_module args chk σ) = EvStat p :: rest).
Proof.
  assert (∀ m, PyInt.int8 (the_mode args) = Some m →
            outcome_of (run_module args chk σ) ≠ Exit (InvalidMode (the_mode args)))
    as Hvalid.
  { intros m Hm.
    destruct (run_module_valid_mode args chk σ m Hm) as [(o & v & Ho & Hv) _].
    rewrite Ho. intros ->%Exit_eq.
    by eapply outcome_with_path_is_not_InvalidMode. }
  split_and!; try reflexivity.
  - unfold int. destruct (PyInt.int8 (the_mode args)) as [m|] eqn:Hm.
    + split; [by intros ?%(Hvalid m)|]. by intros [msg [=]].
    + rewrite run_module_unfold, Hm. split; [eauto|done].
  - intros Hin.
    assert (∃ m, PyInt.int8 (the_mode args) = Some m) as [m Hm].
    { set_unfold in Hin. destruct Hin as [->|[->|[->|[]]]]; eauto. }
    split; [by apply (Hvalid m)|].
    by destruct (run_module_valid_mode args chk σ m Hm) as [_ ?].
Qed.

Lemma invalid_mode_iff_int_raises_witness :
  let args := mkArgs "/tmp/new" "hello" (Some "-644") in
  outcome_of (run_module args false Examples.fs_tmp) ≠ Exit (InvalidMode "-644")
  ∧ ∃ p rest, events_of (run_module args false Examples.fs_tmp) = EvStat p :: rest.
Proof.
  intros args.
  apply (proj2 (proj2 (invalid_mode_iff_int_raises args false Examples.fs_tmp))).
  vm_compute. left.
Defined.

(** *** C10: check mode against a real run *)

(** C10. For every task and store: when the run does not get to the write
    step (the mode is refused, the parent check fails, or something is found
    at the path), the answer, the final store and the calls made are the
    same with check mode set and unset. When it does, the check-mode run
    stops there with [created = true], having made only the calls of the
    checks and changed nothing, and the real run makes the same calls
    followed by those of [write_file], whose end decides its answer. A
    failed write is therefore the answer only of a run with check mode unset
    that got to the write step. *)
Theorem check_mode_differs_only_at_the_write args σ :
  (reaches_write_step args σ = false →
   run_module args true σ = run_module args false σ)
  ∧ (reaches_write_step args σ = true →
     run_module args true σ
     = (Exit (Success (arg_path args) (arg_content args) true), σ,
        prechecks (arg_path args))
     ∧ ∃ r σ' evw,
         write_file (arg_path args) (arg_content args) (the_mode args) σ = (r, σ', evw)
         ∧ run_module args false σ
           = (Exit (write_outcome (arg_path args) (arg_content args) r), σ',
              prechecks (arg_path args) ++ evw))
  ∧ (∀ chk p c e,
       outcome_of (run_module args chk σ) = Exit (WriteFailed p c e) →
       chk = false ∧ reaches_write_step args σ = true).
Proof.
  unfold reaches_write_step. split_and!.
  - intros Hr. rewrite !run_module_unfold.
    destruct (PyInt.int8 (the_mode args)); [|done].
    destruct (parent_ok σ (arg_path args)); [|done].
    by destruct (exists_ σ (arg_path args)).
  - intros Hr. rewrite !run_module_unfold.
    destruct (PyInt.int8 (the_mode args)); [|done].
    destruct (parent_ok σ (arg_path args)); [|done].
    destruct (exists_ σ (arg_path args)); [done|]. cbn [negb].
    split; [done|].
    destruct (write_file _ _ _ σ) as [[[u|e|o] σ'] evw]; by eexists _, _, _.
  - intros chk p c e. rewrite run_module_unfold.
    destruct (WriteFailed_not_others p c e) as (H1 & H2 & H3).
    destruct (PyInt.int8 (the_mode args)).
    2: { intros H%Exit_eq. symmetry in H. by destruct (H1 _ H). }
    destruct (parent_ok σ (arg_path args)); cbn [negb].
    2: { intros H%Exit_eq. symmetry in H. by destruct (H2 _ _ H). }
    destruct (exists_ σ (arg_path args)).
    { intros H%Exit_eq. symmetry in H. by destruct (H3 _ _ _ H). }
    destruct chk; [|done].
    intros H%Exit_eq. symmetry in H. by destruct (H3 _ _ _ H).
Qed.

Lemma check_mode_differs_only_at_the_write_witness :
  let args := mkArgs "/ro/x" "data" None in
  run_module args true Examples.fs_ro
  = (Exit (Success "/ro/x" "data" true), Examples.fs_ro, prechecks "/ro/x")
  ∧ ∃ r σ' evw,
      write_file "/ro/x" "data" "0644" Examples.fs_ro = (r, σ', evw)
      ∧ run_module args false Examples.fs_ro
        = (Exit (write_outcome "/ro/x" "data" r), σ', prechecks "/ro/x" ++ evw).
Proof.
  intros args.
  apply (proj1 (proj2 (check_mode_differs_only_at_the_write args Examples.fs_ro))).
  vm_compute. reflexivity.
Defined.

(* ===================================================================== *)
(** ** Further properties of the code                                      *)
(* ===================================================================== *)

Lemma set_node_twice σ k a b :
  Sys.set_node (Sys.set_node σ k a) k b = Sys.set_node σ k b.
Proof. unfold Sys.set_node. cbn. by rewrite insert_insert_eq. Qed.

Lemma exists_false_namei σ p :
  exists_ σ p = false → PyStr.has_nul p = false →
  ∀ k nd, Sys.namei Sys.MAXSYMLINKS σ p ≠ Sys.Found k nd.
Proof.
  unfold exists_, holds, os.path_exists. rewrite try_except_run, bind_run, stat_run.
  intros H Hn k nd Hf. rewrite Hn in H. unfold Sys.stat in H. rewrite Hf in H.
  discriminate.
Qed.

Lemma exists_true_stat σ p :
  exists_ σ p = true ↔ PyStr.has_nul p = false ∧ ∃ nd, Sys.stat σ p = inr nd.
Proof.
  unfold exists_, holds, os.path_exists. rewrite try_except_run, bind_run, stat_run.
  destruct (PyStr.has_nul p).
  { split; [done|]. by intros [? _]. }
  destruct (Sys.stat σ p) as [e|nd]; cbn.
  - split; [done|]. by intros [_ [? ?]].
  - split; [eauto|done].
Qed.

Lemma isdir_true_stat σ p :
  isdir σ p = true ↔ PyStr.has_nul p = false ∧ ∃ q, Sys.stat σ p = inr (Dir q).
Proof.
  unfold isdir, holds, os.path_isdir. rewrite try_except_run, bind_run, stat_run.
  destruct (PyStr.has_nul p).
  { split; [done|]. by intros [? _]. }
  destruct (Sys.stat σ p) as [e|[d q|q|t]]; cbn.
  all: split; [try done; eauto|]; try by intros [_ [? ?]].
Qed.

(** What [write_file] can do to the store. *)
Lemma write_file_store path content mode σ r σ' ev :
  write_file path content mode σ = (r, σ', ev) →
  σ' = σ
  ∨ ∃ σ1 k q, PyStr.has_nul path = false ∧ Sys.open_w σ path = inr (σ1, k)
      ∧ σ' = Sys.set_node σ k (File content q)
      ∧ Sys.stat σ' path = inr (File content q).
Proof.
  rewrite write_file_run. destruct (PyStr.has_nul path) eqn:Hnul.
  { intros [= <- <- <-]. by left. }
  destruct (Sys.open_w σ path) as [e|[σ1 k]] eqn:Ho.
  { intros [= <- <- <-]. by left. }
  pose proof Ho as Ho'.
  apply open_w_inr in Ho' as (q & -> & Hn1).
  assert (Sys.write (Sys.set_node σ k (File "" q)) k content
          = Sys.set_node σ k (File content q)) as Hwr.
  { unfold Sys.write. cbn [Sys.set_node nodes]. rewrite lookup_insert_eq.
    apply set_node_twice. }
  rewrite Hwr.
  assert (Sys.namei Sys.MAXSYMLINKS (Sys.set_node σ k (File content q)) path
          = Sys.Found k (File content q)) as Hn2.
  { rewrite <- Hwr. unfold Sys.write. cbn [Sys.set_node nodes]. rewrite lookup_insert_eq.
    apply namei_set_node; eauto. }
  rewrite bind_run. unfold int. destruct (PyInt.int8 mode) as [m|].
  2: { intros [= <- <- <-]. right. eexists _, k, q. split_and!; try done.
       unfold Sys.stat. by rewrite Hn2. }
  cbv [ret]. rewrite log_before_nil, chmod_run, Hnul.
  destruct (negb (in_C_int m)).
  { intros [= <- <- <-]. right. eexists _, k, q. split_and!; try done.
    unfold Sys.stat. by rewrite Hn2. }
  unfold Sys.chmod. rewrite Hn2. intros [= <- <- <-]. right.
  eexists _, k, _. split_and!; try done.
  - by rewrite set_node_twice.
  - rewrite set_node_twice. unfold Sys.stat.
    rewrite (namei_set_node _ σ path k); eauto.
    unfold Sys.open_w in Ho.
    destruct (Sys.namei Sys.MAXSYMLINKS σ path) as [k0 [d q0|q0|t]|k0|] eqn:Hn;
      try discriminate.
    + destruct (Sys.owner_can_write q0); [|discriminate]. injection Ho as _ <-. eauto.
    + destruct (negb (PyStr.truthy k0)); [discriminate|].
      destruct (Sys.ends_with_sep k0); [discriminate|].
      destruct (Sys.stat σ (Sys.parent k0)) as [e|[d q0|q0|t]]; try discriminate.
      destruct (Sys.owner_can_add_entry q0); [|discriminate].
      injection Ho as _ <-. eauto.
Qed.

Lemma open_w_of_missing σ p σ1 k :
  Sys.open_w σ p = inr (σ1, k) →
  (∀ k' nd, Sys.namei Sys.MAXSYMLINKS σ p ≠ Sys.Found k' nd) →
  Sys.namei Sys.MAXSYMLINKS σ p = Sys.Missing k.
Proof.
  unfold Sys.open_w. intros Ho Hnf.
  destruct (Sys.namei Sys.MAXSYMLINKS σ p) as [k0 nd|k0|] eqn:Hn.
  - by destruct (Hnf k0 nd).
  - destruct (negb (PyStr.truthy k0)); [discriminate|].
    destruct (Sys.ends_with_sep k0); [discriminate|].
    destruct (Sys.stat σ (Sys.parent k0)) as [e|[d q0|q0|t]]; try discriminate.
    destruct (Sys.owner_can_add_entry q0); [|discriminate].
    by injection Ho as _ <-.
  - discriminate.
Qed.

(** What a run can do to the store: nothing, or one new file. *)
Lemma run_module_store args chk σ :
  final_fs (run_module args chk σ) = σ
  ∨ ∃ k q,
      chk = false ∧ reaches_write_step args σ = true
      ∧ Sys.namei Sys.MAXSYMLINKS σ (arg_path args) = Sys.Missing k
      ∧ final_fs (run_module args chk σ) = Sys.set_node σ k (File (arg_content args) q)
      ∧ Sys.stat (final_fs (run_module args chk σ)) (arg_path args)
        = inr (File (arg_content args) q).
Proof.
  rewrite run_module_unfold. unfold reaches_write_step.
  destruct (PyInt.int8 (the_mode args)); [|by left].
  destruct (parent_ok σ (arg_path args)); [|by left]. cbn [negb andb].
  destruct (exists_ σ (arg_path args)) eqn:He; [by left|].
  destruct chk; [by left|].
  destruct (write_file _ _ _ σ) as [[r σ'] ev] eqn:Hw.
  apply write_file_store in Hw as [->|(σ1 & k & q & Hnul & Ho & -> & Hst)].
  { left. by destruct r. }
  right. exists k, q.
  assert (final_fs (match r with
                    | Ret _ => (Exit (Success (arg_path args) (arg_content args) true),
                                Sys.set_node σ k (File (arg_content args) q),
                                prechecks (arg_path args) ++ ev)
                    | Raise e => (Exit (WriteFailed (arg_path args) (arg_content args) e),
                                  Sys.set_node σ k (File (arg_content args) q),
                                  prechecks (arg_path args) ++ ev)
                    | Exit o => (Exit o, Sys.set_node σ k (File (arg_content args) q),
                                 prechecks (arg_path args) ++ ev)
                    end) = Sys.set_node σ k (File (arg_content args) q)) as -> by by destruct r.
  split_and!; try done.
  eapply open_w_of_missing; [done|]. by apply exists_false_namei.
Qed.

(** X1. A run never modifies or removes what is already in the store:
    every entry of the initial store is found unchanged, under the same
    key, in the final store, whatever the task, the check-mode setting and
    the way the run ends. *)
Theorem existing_entries_are_never_touched args chk σ k nd :
  nodes σ !! k = Some nd →
  nodes (final_fs (run_module args chk σ)) !! k = Some nd.
Proof.
  intros Hk. destruct (run_module_store args chk σ) as [->|(k0 & q & _ & _ & Hn & -> & _)];
    [done|].
  apply namei_Missing in Hn. cbn [Sys.set_node nodes].
  rewrite lookup_insert_ne; [done|congruence].
Qed.

Lemma existing_entries_are_never_touched_witness :
  nodes (final_fs (run_module (mkArgs "/tmp/new" "hello" None) false Examples.fs_tmp))
    !! "/tmp" = Some (Dir 1023).
Proof.
  apply (existing_entries_are_never_touched
           (mkArgs "/tmp/new" "hello" None) false Examples.fs_tmp "/tmp" (Dir 1023)).
  vm_compute. reflexivity.
Defined.


(** X3. In check mode the store is never changed and no call of the write
    step is made, for every task and store (not only for a missing path). *)
Theorem check_mode_never_changes_the_store args σ :
  final_fs (run_module args true σ) = σ
  ∧ wrote (events_of (run_module args true σ)) = false.
Proof.
  rewrite run_module_unfold.
  destruct (PyInt.int8 (the_mode args)); [|done].
  destruct (negb (parent_ok σ (arg_path args))); [done|].
  destruct (exists_ σ (arg_path args)); (split; [done|apply wrote_prechecks]).
Qed.

(** X4. The [created] field that a check-mode run reports is the one that
    the real run from the same store reports, also when the real run ends
    in a failed write (both say [true]) and when neither has the field. *)
Theorem check_mode_predicts_created args σ o_check o_real :
  outcome_of (run_module args true σ) = Exit o_check →
  outcome_of (run_module args false σ) = Exit o_real →
  payload o_check !! "created" = payload o_real !! "created".
Proof.
  rewrite !run_module_unfold.
  destruct (PyInt.int8 (the_mode args)).
  2: { intros ->%Exit_eq ->%Exit_eq. done. }
  destruct (negb (parent_ok σ (arg_path args))).
  { intros <-%Exit_eq <-%Exit_eq. done. }
  destruct (exists_ σ (arg_path args)).
  { intros <-%Exit_eq <-%Exit_eq. done. }
  intros <-%Exit_eq.
  destruct (write_file _ _ _ σ) as [[[u|e|o] σ'] ev] eqn:Hw.
  - intros <-%Exit_eq. done.
  - intros <-%Exit_eq. cbn [payload Success].
    rewrite result_dict_created. symmetry. apply WriteFailed_payload.
  - apply write_file_shape in Hw as [_ Hne]. by destruct (Hne o).
Qed.

Lemma check_mode_predicts_created_witness :
  payload (Success "/ro/x" "data" true) !! "created"
  = payload (WriteFailed "/ro/x" "data" (OSError_of Sys.EACCES "/ro/x")) !! "created".
Proof.
  apply (check_mode_predicts_created (mkArgs "/ro/x" "data" None) Examples.fs_ro);
    vm_compute; reflexivity.
Defined.

Lemma namei_extend n σ p k x k' nd :
  nodes σ !! k = None →
  Sys.namei n σ p = Sys.Found k' nd →
  Sys.namei n (Sys.set_node σ k x) p = Sys.Found k' nd.
Proof.
  intros Hk. revert p. induction n as [|n IH]; intros p; cbn.
  all: destruct (nodes σ !! p) as [nd0|] eqn:Hp; [|done].
  all: assert (k ≠ p) as Hne by congruence.
  all: rewrite lookup_insert_ne, Hp by done.
  all: destruct nd0; try done. apply IH.
Qed.

Lemma stat_extend σ p k x nd :
  nodes σ !! k = None →
  Sys.stat σ p = inr nd →
  Sys.stat (Sys.set_node σ k x) p = inr nd.
Proof.
  unfold Sys.stat. intros Hk.
  destruct (Sys.namei Sys.MAXSYMLINKS σ p) as [k' nd'|k'|] eqn:Hn; try done.
  intros [= ->]. by rewrite (namei_extend _ _ _ _ _ _ _ Hk Hn).
Qed.

Lemma parent_ok_extend σ p k x :
  nodes σ !! k = None →
  parent_ok σ p = true →
  parent_ok (Sys.set_node σ k x) p = true.
Proof.
  unfold parent_ok. intros Hk.
  destruct (PyStr.truthy (os_path.dirname p)); [|done]. cbn [negb orb].
  rewrite !isdir_true_stat. intros [Hn [q Hq]]. split; [done|].
  exists q. by apply stat_extend.
Qed.

Lemma write_file_Ret_nul path content mode σ σ' ev :
  write_file path content mode σ = (Ret tt, σ', ev) → PyStr.has_nul path = false.
Proof. rewrite write_file_run. by destruct (PyStr.has_nul path). Qed.

Lemma Success_created_inj p c b p' c' b' :
  Success p c b = Success p' c' b' → b = b'.
Proof.
  intros H. assert (payload (Success p c b) !! "created"
                    = payload (Success p' c' b') !! "created") as Hc by by rewrite H.
  cbn [payload Success] in Hc. rewrite !result_dict_created in Hc. congruence.
Qed.

Lemma run_eq_parts {A} (r r' : res A) (σ σ' : fs) (ev ev' : list event) :
  (r, σ, ev) = (r', σ', ev') → r = r' ∧ σ = σ' ∧ ev = ev'.
Proof.
  intros H. split_and!;
    [exact (f_equal outcome_of H)|exact (f_equal final_fs H)|exact (f_equal events_of H)].
Qed.

(** X5. Once a real run has created the file, any later invocation on the
    same path, with any content, any mode that parses and either check-mode
    setting, reports [created = false] and leaves the store as the first
    run left it. *)
Theorem second_run_finds_the_file args σ σ' ev args2 chk2 m2 :
  run_module args false σ
  = (Exit (Success (arg_path args) (arg_content args) true), σ', ev) →
  arg_path args2 = arg_path args →
  PyInt.int8 (the_mode args2) = Some m2 →
  run_module args2 chk2 σ'
  = (Exit (Success (arg_path args) (arg_content args2) false), σ',
     prechecks (arg_path args)).
Proof.
  intros H Hp Hm2.
  pose proof (run_module_store args false σ) as Hst.
  rewrite H in Hst. cbn [final_fs fst snd] in Hst.
  rewrite run_module_unfold in H.
  destruct (PyInt.int8 (the_mode args)); [|discriminate].
  destruct (parent_ok σ (arg_path args)) eqn:Hpar; [|discriminate]. cbn [negb] in H.
  destruct (exists_ σ (arg_path args)) eqn:He.
  { apply run_eq_parts in H as (H%Exit_eq%Success_created_inj & _ & _). discriminate. }
  destruct (write_file _ _ _ σ) as [[[[]|e|o] σw] evw] eqn:Hw.
  2: { apply run_eq_parts in H as (H%Exit_eq & _ & _).
       destruct (WriteFailed_not_others (arg_path args) (arg_content args) e)
         as (_ & _ & H3). by destruct (H3 _ _ _ H). }
  2: { apply write_file_shape in Hw as [_ Hne]. by destruct (Hne o). }
  apply run_eq_parts in H as (_ & <- & <-).
  pose proof (write_file_Ret_nul _ _ _ _ _ _ Hw) as Hnul.
  apply write_file_Ret in Hw as (m' & k' & _ & _ & _ & Hstat).
  assert (exists_ σw (arg_path args) = true) as He'.
  { apply exists_true_stat. eauto. }
  assert (parent_ok σw (arg_path args) = true) as Hpar'.
  { destruct Hst as [->|(k & q & _ & _ & Hn & -> & _)]; [done|].
    apply parent_ok_extend; [by eapply namei_Missing|done]. }
  rewrite run_module_unfold, Hm2, Hp, Hpar', He'. done.
Qed.

Lemma second_run_finds_the_file_witness :
  let args :=
    mkArgs "/tmp/test1/placeholder.txt" ("hello" +:+ Examples.newline) (Some "0644") in
  run_module (mkArgs "/tmp/test1/placeholder.txt" "other" (Some "0600")) false
    Examples.fs_test1_written
  = (Exit (Success "/tmp/test1/placeholder.txt" "other" false), Examples.fs_test1_written,
     prechecks "/tmp/test1/placeholder.txt").
Proof.
  intros args.
  apply (second_run_finds_the_file args Examples.fs_test1 Examples.fs_test1_written
           (prechecks (arg_path args) ++
            [EvOpen (arg_path args); EvWrite (arg_path args) (arg_content args);
             EvClose (arg_path args); EvChmod (arg_path args) 420])
           (mkArgs "/tmp/test1/placeholder.txt" "other" (Some "0600")) false 384);
    vm_compute; reflexivity.
Defined.


Lemma chars_of_chars l : PyStr.chars (PyStr.of_chars l) = l.
Proof. apply list_ascii_of_string_of_list_ascii. Qed.

Lemma of_chars_chars s : PyStr.of_chars (PyStr.chars s) = s.
Proof. apply string_of_list_ascii_of_string. Qed.















Ltac each_char c := destruct c as [[] [] [] [] [] [] [] []]; vm_compute; try done.

Lemma octal_digit_facts c :
  is_octal_digit c = true →
  PyInt.Py_ISSPACE c = false
  ∧ PyStr.eqc c "+"%char = false ∧ PyStr.eqc c "-"%char = false
  ∧ PyStr.eqc c "_"%char = false
  ∧ PyStr.eqc c "o"%char = false ∧ PyStr.eqc c "O"%char = false
  ∧ (PyInt.DigitValue c <? 8) = true
  ∧ (PyStr.ord c <? 128) = true.
Proof. each_char c. Qed.

Lemma octal_digit_value c :
  is_octal_digit c = true → PyInt.DigitValue c = PyStr.ord c - 48 ∧ 0 ≤ PyStr.ord c - 48 < 8.
Proof. each_char c. Qed.

Lemma scan_octal_digits l acc :
  forallb is_octal_digit l = true →
  PyInt.scan_digits 8 l false acc = Some (octal_value_from acc l, []).
Proof.
  revert acc. induction l as [|c l IH]; intros acc; [done|].
  cbn [forallb]. intros [Hc Hl]%andb_true_iff.
  destruct (octal_digit_facts c Hc) as (_ & _ & _ & Hus & _ & _ & Hd & _).
  destruct (octal_digit_value c Hc) as [Hv _].
  cbn [PyInt.scan_digits]. rewrite Hus, Hd, Hv. by apply IH.
Qed.

Lemma octal_value_from_bounds l acc :
  forallb is_octal_digit l = true → 0 ≤ acc →
  0 ≤ octal_value_from acc l < (acc + 1) * 8 ^ Z.of_nat (length l).
Proof.
  revert acc. induction l as [|c l IH]; intros acc Hl Hacc.
  { cbn. lia. }
  cbn [forallb] in Hl. apply andb_true_iff in Hl as [Hc Hl].
  destruct (octal_digit_value c Hc) as [_ Hv].
  cbn [octal_value_from length].
  specialize (IH (acc * 8 + (PyStr.ord c - 48)) Hl ltac:(lia)).
  rewrite Nat2Z.inj_succ, Z.pow_succ_r by lia.
  assert (0 < 8 ^ Z.of_nat (length l)) by (apply Z.pow_pos_nonneg; lia).
  nia.
Qed.

Lemma octal_digits_ascii l : forallb is_octal_digit l = true → PyInt.is_ascii l = true.
Proof.
  unfold PyInt.is_ascii. induction l as [|c l IH]; [done|]. cbn [forallb].
  intros [Hc Hl]%andb_true_iff.
  destruct (octal_digit_facts c Hc) as (_ & _ & _ & _ & _ & _ & _ & ->). by apply IH.
Qed.

Lemma PyLong_FromString8_octal_digits l :
  l ≠ [] → forallb is_octal_digit l = true →
  PyInt.PyLong_FromString8 l = Some (octal_value_from 0 l).
Proof.
  intros Hne Hl. destruct l as [|c l]; [done|]. clear Hne.
  pose proof Hl as Hcl. cbn [forallb] in Hcl. apply andb_true_iff in Hcl as [Hc Hl'].
  destruct (octal_digit_facts c Hc) as (Hsp & Hplus & Hminus & Hus & _ & _ & Hd & _).
  unfold PyInt.PyLong_FromString8. cbn [PyInt.skip_space]. rewrite Hsp, Hplus, Hminus.
  assert (match c :: l with
          | c0 :: c1 :: rest =>
              if PyStr.eqc c0 "0" && (PyStr.eqc c1 "o" || PyStr.eqc c1 "O")
              then match rest with
                   | u :: rest' => if PyStr.eqc u "_" then rest' else rest
                   | [] => rest
                   end
              else c :: l
          | _ => c :: l
          end = c :: l) as ->.
  { destruct l as [|c1 rest]; [done|].
    cbn [forallb] in Hl'. apply andb_true_iff in Hl' as [Hc1 _].
    destruct (octal_digit_facts c1 Hc1) as (_ & _ & _ & _ & -> & -> & _).
    by rewrite andb_false_r. }
  rewrite Hus, (scan_octal_digits _ _ Hl).
  unfold PyInt.starts_with_digit_or_us. rewrite Hus, Hd. cbn.
  f_equal. lia.
Qed.

(** X7. Every non-empty text made of the digits 0 to 7 passes
    [int(mode, 8)], with the number it writes in base 8; that number is
    below 8 to the number of digits, so a mode of at most four digits lies
    within the permission bits (0 to 0o7777). *)
Theorem octal_digits_are_a_valid_mode (mode : string) :
  PyStr.truthy mode = true →
  forallb is_octal_digit (PyStr.chars mode) = true →
  PyInt.int8 mode = Some (octal_value mode)
  ∧ 0 ≤ octal_value mode < 8 ^ Z.of_nat (length (PyStr.chars mode))
  ∧ ((length (PyStr.chars mode) ≤ 4)%nat → 0 ≤ octal_value mode ≤ 4095).
Proof.
  intros Hne Hd. unfold PyInt.int8, PyInt.TransformDecimalAndSpaceToASCII, octal_value.
  rewrite (octal_digits_ascii _ Hd).
  pose proof (octal_value_from_bounds _ 0 Hd ltac:(lia)) as Hb.
  split; [|split].
  - apply PyLong_FromString8_octal_digits; [|done]. by destruct mode.
  - lia.
  - intros Hlen.
    assert (8 ^ Z.of_nat (length (PyStr.chars mode)) ≤ 8 ^ 4).
    { apply Z.pow_le_mono_r; lia. }
    lia.
Qed.

Lemma octal_digits_are_a_valid_mode_witness :
  PyInt.int8 "0644" = Some (octal_value "0644")
  ∧ 0 ≤ octal_value "0644" < 8 ^ Z.of_nat (length (PyStr.chars "0644"))
  ∧ ((length (PyStr.chars "0644") ≤ 4)%nat → 0 ≤ octal_value "0644" ≤ 4095).
Proof. apply (octal_digits_are_a_valid_mode "0644"); reflexivity. Defined.




Lemma question_mark_never_in_octal_text : never_in_octal_text "?"%char = true.
Proof. reflexivity. Qed.









Example foreign_characters :
  map never_in_octal_text (PyStr.chars "89ax?rw=,.u") = repeat true 11
  ∧ map never_in_octal_text (PyStr.chars "01234567+-_oO ") = repeat false 14.
Proof. split; reflexivity. Qed.


Lemma rfind_from_absent c l i last :
  existsb (λ x, PyStr.eqc x c) l = false → PyStr.rfind_from c l i last = last.
Proof.
  revert i last. induction l as [|x l IH]; intros i last; [done|].
  cbn [existsb PyStr.rfind_from]. intros [-> Hl]%orb_false_iff. by apply IH.
Qed.





Lemma write_file_calls path content mode σ r σ' ev :
  write_file path content mode σ = (r, σ', ev) →
  ev = [EvOpen path]
  ∨ ∃ k, ev = [EvOpen path; EvWrite k content; EvClose k]
         ∨ ∃ m, PyInt.int8 mode = Some m
                ∧ ev = [EvOpen path; EvWrite k content; EvClose k; EvChmod path m].
Proof.
  rewrite write_file_run. destruct (PyStr.has_nul path) eqn:Hnul.
  { intros [= <- <- <-]. by left. }
  destruct (Sys.open_w σ path) as [e|[σ1 k]].
  { intros [= <- <- <-]. by left. }
  rewrite bind_run. unfold int. destruct (PyInt.int8 mode) as [m|].
  2: { intros [= <- <- <-]. right. exists k. by left. }
  cbv [ret]. rewrite log_before_nil, chmod_run, Hnul.
  destruct (negb (in_C_int m)).
  { intros [= <- <- <-]. right. exists k. right. by exists m. }
  destruct (Sys.chmod _ _ m); intros [= <- <- <-]; right; exists k; right; by exists m.
Qed.

Ltac calls_about :=
  repeat (apply List.Forall_cons; [cbn; auto|]); apply List.Forall_nil.

Lemma prechecks_about args : Forall (call_is_about args) (prechecks (arg_path args)).
Proof. unfold prechecks. destruct (PyStr.truthy _); cbn [app]; calls_about. Qed.

(** X10. A run calls the filesystem only about the task: it looks up only
    the path and its directory part, opens and changes the mode of the path
    only, writes the content of the task only, and gives [os.chmod] the
    number that the mode parses to. *)
Theorem every_call_is_about_the_task args chk σ :
  Forall (call_is_about args) (events_of (run_module args chk σ)).
Proof.
  rewrite run_module_unfold.
  destruct (PyInt.int8 (the_mode args)) as [m0|] eqn:Hm; [|apply List.Forall_nil].
  destruct (negb (parent_ok σ (arg_path args))).
  { calls_about. }
  destruct (exists_ σ (arg_path args)); [apply prechecks_about|].
  destruct chk; [apply prechecks_about|].
  destruct (write_file _ _ _ σ) as [[r σ'] ev] eqn:Hw.
  assert (Forall (call_is_about args) ev) as Hev.
  { apply write_file_calls in Hw as [->|[k [->|(m & Hm' & ->)]]]; calls_about. }
  destruct r; cbn [events_of snd]; apply Forall_app; split;
    auto using prechecks_about.
Qed.

(** X11. [main] never lets an exception escape and never runs off its
    end: for every task, check-mode setting and store it ends in
    [exit_json] or [fail_json], with one of four answers: invalid mode,
    missing parent directory, success, or failed write. *)
Theorem main_always_answers args chk σ :
  ∃ o σ' ev,
    main args chk σ = (Exit o, σ', ev)
    ∧ (o = InvalidMode (the_mode args)
       ∨ o = MissingParentDirectory (arg_path args) (arg_content args)
       ∨ (∃ b, o = Success (arg_path args) (arg_content args) b)
       ∨ (∃ e, o = WriteFailed (arg_path args) (arg_content args) e)).
Proof.
  unfold main. rewrite run_module_unfold.
  destruct (PyInt.int8 (the_mode args)); [|by eauto 10].
  destruct (negb (parent_ok σ (arg_path args))); [by eauto 10|].
  destruct (exists_ σ (arg_path args)); [by eauto 10|].
  destruct chk; [by eauto 10|].
  destruct (write_file _ _ _ σ) as [[[u|e|o] σ'] ev] eqn:Hw; [by eauto 10..|].
  apply write_file_shape in Hw as [_ Hne]. by destruct (Hne o).
Qed.


Lemma chars_app (s t : string) : PyStr.chars (s +:+ t) = PyStr.chars s ++ PyStr.chars t.
Proof.
  induction s as [|x s IH]; [done|]. rewrite str_app_cons. cbn. by f_equal.
Qed.

Lemma rfind_from_last c l1 l2 i last :
  existsb (λ x, PyStr.eqc x c) l2 = false →
  PyStr.rfind_from c (l1 ++ c :: l2) i last = i + Z.of_nat (length l1).
Proof.
  intros H2. revert i last. induction l1 as [|x l1 IH]; intros i last.
  - cbn [app PyStr.rfind_from length]. rewrite rfind_from_absent by done.
    unfold PyStr.eqc. rewrite Ascii.eqb_refl. lia.
  - cbn [app PyStr.rfind_from length]. rewrite IH. lia.
Qed.

Lemma repeat_all_eq (c : ascii) l n : l = List.repeat c n → ∀ x, In x l → x = c.
Proof. intros -> x. apply repeat_spec. Qed.

(** X12. The directory part of [d/f] is [d], for a non-empty [d] that does
    not end in a slash and a file name [f] without a slash: the parent check
    of the module is made on exactly the directory the file is to lie in. *)
Theorem dirname_of_joined_path (d f : string) :
  PyStr.truthy d = true →
  Sys.ends_with_sep d = false →
  existsb (λ x, PyStr.eqc x os_path.sep) (PyStr.chars f) = false →
  os_path.dirname (d +:+ "/" +:+ f) = d.
Proof.
  intros Hd Hend Hf. unfold os_path.dirname, PyStr.rfind, PyStr.slice_to.
  rewrite !chars_app. change (PyStr.chars "/") with [os_path.sep]. cbn [app].
  rewrite rfind_from_last by done.
  replace (Z.to_nat (0 + Z.of_nat (length (PyStr.chars d)) + 1))
    with (length (PyStr.chars d ++ [os_path.sep])) by (rewrite length_app; cbn; lia).
  replace (PyStr.chars d ++ os_path.sep :: PyStr.chars f)
    with ((PyStr.chars d ++ [os_path.sep]) ++ PyStr.chars f) by by rewrite <- app_assoc.
  rewrite firstn_app, Nat.sub_diag, firstn_all, firstn_O, app_nil_r.
  (* the last character of [d] *)
  unfold Sys.ends_with_sep in Hend.
  destruct (rev (PyStr.chars d)) as [|c r] eqn:Hrev.
  { apply (f_equal (@rev ascii)) in Hrev. rewrite rev_involutive in Hrev.
    destruct d; [done|]. cbn in Hrev. discriminate. }
  assert (PyStr.chars d = rev r ++ [c]) as Hchars.
  { apply (f_equal (@rev ascii)) in Hrev. by rewrite rev_involutive in Hrev. }
  assert (PyStr.truthy (PyStr.of_chars (PyStr.chars d ++ [os_path.sep])) = true) as ->.
  { rewrite Hchars. by destruct (rev r). }
  assert (String.eqb (PyStr.of_chars (PyStr.chars d ++ [os_path.sep]))
            (PyStr.repeat_char os_path.sep
               (String.length (PyStr.of_chars (PyStr.chars d ++ [os_path.sep])))) = false)
    as ->.
  { apply String.eqb_neq. intros Heq.
    apply (f_equal PyStr.chars) in Heq. unfold PyStr.repeat_char in Heq.
    rewrite !chars_of_chars in Heq.
    assert (c = os_path.sep) as ->.
    { eapply repeat_all_eq; [exact Heq|]. rewrite Hchars. apply in_or_app. left.
      apply in_or_app. right. by left. }
    unfold PyStr.eqc in Hend. by rewrite Ascii.eqb_refl in Hend. }
  cbn [andb negb]. unfold PyStr.rstrip. rewrite chars_of_chars, rev_app_distr.
  cbn [rev app PyStr.drop_leading]. unfold PyStr.eqc at 1. rewrite Ascii.eqb_refl.
  rewrite Hrev. cbn [PyStr.drop_leading]. rewrite Hend, <- Hrev, rev_involutive.
  apply of_chars_chars.
Qed.

Lemma dirname_of_joined_path_witness :
  os_path.dirname ("/var/log/myapp" +:+ "/" +:+ "first_run.txt") = "/var/log/myapp".
Proof.
  apply (dirname_of_joined_path "/var/log/myapp" "first_run.txt"); reflexivity.
Defined.


(** X16. A path with a NUL character in it is never reported as existing,
    and a real run on it always ends in a failure and leaves the store
    unchanged. *)
Theorem path_with_nul_is_never_created args σ :
  PyStr.has_nul (arg_path args) = true →
  final_fs (run_module args false σ) = σ
  ∧ exists_ σ (arg_path args) = false
  ∧ ∃ o, outcome_of (run_module args false σ) = Exit o ∧ is_failure o = true.
Proof.
  intros Hnul.
  assert (exists_ σ (arg_path args) = false) as He.
  { apply not_true_is_false. intros [H _]%exists_true_stat. congruence. }
  rewrite run_module_unfold, He, write_file_run, Hnul.
  destruct (PyInt.int8 (the_mode args)); [|by eauto].
  destruct (negb (parent_ok σ (arg_path args))); by eauto.
Qed.

Lemma path_with_nul_is_never_created_witness :
  let p := "/tmp/a" +:+ String "000"%char "b" in
  final_fs (run_module (mkArgs p "hello" None) false Examples.fs_tmp) = Examples.fs_tmp
  ∧ exists_ Examples.fs_tmp p = false
  ∧ ∃ o, outcome_of (run_module (mkArgs p "hello" None) false Examples.fs_tmp) = Exit o
         ∧ is_failure o = true.
Proof.
  intros p.
  apply (path_with_nul_is_never_created (mkArgs p "hello" None) Examples.fs_tmp).
  reflexivity.
Defined.

Example path_with_nul_in_check_mode :
  let p := "/tmp/a" +:+ String "000"%char "b" in
  outcome_of (run_module (mkArgs p "hello" None) true Examples.fs_tmp)
  = Exit (Success p "hello" true)
  ∧ outcome_of (run_module (mkArgs p "hello" None) false Examples.fs_tmp)
    = Exit (WriteFailed p "hello" (ValueError "embedded null byte")).
Proof. intros p. split; vm_compute; reflexivity. Qed.
